(** * cywp: the docker layer ([src/docker/docker.js])

    A shallow embedding of the argument builders
    [processCreateContainerOptions] and [ProcessCreateNetworkOption] and of
    the [Docker] class that drives them, followed by the properties that the
    specification states about them.

    The program is JavaScript, so option objects are dynamically typed: the
    embedding works on a small universe of JavaScript data values and spells
    out the coercions the code relies on (truthiness, [Number.isInteger],
    template-literal string conversion, property reads). *)

From stdpp Require Import gmap strings list fin_maps.
From Stdlib Require Import ZArith Ascii String DecimalString.

Set Warnings "-register-all".
Local Open Scope string_scope.
Local Open Scope list_scope.

(** ** JavaScript data values *)

(** Numbers.  The code only asks three things of a number: whether it is
    truthy, whether [Number.isInteger] holds, and how it prints inside a
    template literal.  An integral double is carried as its value ([+0] and
    [-0] are both [NInt 0]: the code cannot tell them apart); a finite
    non-integral double is carried as the text [Number::toString] gives it,
    which identifies it uniquely. *)
Inductive number :=
| NInt (z : Z)
| NFrac (text : string)
| NNaN
| NInf (negative : bool).

Inductive jsval :=
| JUndefined
| JNull
| JBool (b : bool)
| JNum (n : number)
| JStr (s : string)
| JArr (items : list jsval)
| JObj (props : gmap string jsval).

(** The two error constructors of the source, and the [TypeError] the engine
    itself raises when a property is read from [undefined] or [null]. *)
Inductive error_class := ErrorClass | TypeErrorClass.

Inductive error :=
| Thrown (cls : error_class) (message : string)
| EngineTypeError (property : string) (base : jsval).

Definition nl : string := String "010" EmptyString.
Definition tab : string := String "009" EmptyString.

Module JS.

(** ToBoolean. *)
Definition truthy (v : jsval) : bool :=
  match v with
  | JUndefined | JNull => false
  | JBool b => b
  | JNum (NInt z) => negb (z =? 0)%Z
  | JNum NNaN => false
  | JNum (NFrac _) | JNum (NInf _) => true
  | JStr EmptyString => false
  | JStr (String _ _) => true
  | JArr _ | JObj _ => true
  end.

(** [Number.isInteger]. *)
Definition isInteger (v : jsval) : bool :=
  match v with
  | JNum (NInt _) => true
  | _ => false
  end.

(** [Array.isArray]. *)
Definition isArray (v : jsval) : bool :=
  match v with
  | JArr _ => true
  | _ => false
  end.

(** [typeof v === 'string']. *)
Definition isString (v : jsval) : bool :=
  match v with
  | JStr _ => true
  | _ => false
  end.

(** Number::toString; integral values print in plain decimal (they do so
    below 10^21 in magnitude). *)
Definition number_to_string (n : number) : string :=
  match n with
  | NInt z => NilZero.string_of_int (Z.to_int z)
  | NFrac text => text
  | NNaN => "NaN"
  | NInf false => "Infinity"
  | NInf true => "-Infinity"
  end.

Fixpoint join (sep : string) (l : list string) : string :=
  match l with
  | [] => ""
  | [s] => s
  | s :: r => s +:+ sep +:+ join sep r
  end.

(** ToString, as a template literal applies it. *)
Fixpoint ToString (v : jsval) : string :=
  match v with
  | JUndefined => "undefined"
  | JNull => "null"
  | JBool true => "true"
  | JBool false => "false"
  | JNum n => number_to_string n
  | JStr s => s
  | JArr items =>
      join "," (map (fun x => match x with
                              | JUndefined | JNull => ""
                              | _ => ToString x
                              end) items)
  | JObj _ => "[object Object]"
  end.

(** The value of [v.k], for the property names the program reads (none of
    them is defined on a primitive wrapper or on [Array.prototype]). *)
Definition field (v : jsval) (k : string) : jsval :=
  match v with
  | JObj props => default JUndefined (props !! k)
  | _ => JUndefined
  end.

(** The property read itself, which throws on [undefined] and [null]. *)
Definition Get (v : jsval) (k : string) : error + jsval :=
  match v with
  | JUndefined | JNull => inl (EngineTypeError k v)
  | _ => inr (field v k)
  end.

(** [v.k = x] on an object. *)
Definition set_field (v : jsval) (k : string) (x : jsval) : jsval :=
  match v with
  | JObj props => JObj (<[k := x]> props)
  | _ => v
  end.

(** [s.replace(pattern, replacement)] for a string pattern: the first
    occurrence only. *)
Fixpoint replace (s pattern replacement : string) : string :=
  match s with
  | EmptyString =>
      if String.prefix pattern s then replacement else s
  | String c r =>
      if String.prefix pattern s
      then replacement +:+ substring (String.length pattern) (String.length s - String.length pattern) s
      else String c (replace r pattern replacement)
  end.

End JS.

(** ** Effects: a mutable state and exceptions

    A computation maps the state to an outcome and the state as it stands
    when the computation returns or throws.  The builders run on their local
    array [args]; the methods of [Docker] run on the world outside them. *)
Definition Eff (S A : Type) : Type := S → (error + A) * S.

Definition ret {S A} (a : A) : Eff S A := λ s, (inr a, s).

Definition bind {S A B} (m : Eff S A) (f : A → Eff S B) : Eff S B :=
  λ s, match m s with
       | (inr a, s') => f a s'
       | (inl e, s') => (inl e, s')
       end.

Definition throw {S A} (e : error) : Eff S A := λ s, (inl e, s).

Definition lift {S A} (r : error + A) : Eff S A := λ s, (r, s).

Definition when {S} (c : bool) (m : Eff S unit) : Eff S unit :=
  if c then m else ret tt.

Notation "'let!' x ':=' m 'in' k" := (bind m (λ x, k))
  (at level 10, x name, m at level 100, k at level 200).
Notation "m >> k" := (bind m (λ _, k))
  (at level 90, right associativity).

Abbreviation Build := (Eff (list jsval)).

Definition push (xs : list jsval) : Build unit := λ args, (inr tt, args ++ xs).

Definition pop : Build unit := λ args, (inr tt, removelast args).

Fixpoint forEach (items : list jsval) (f : jsval → Build unit) : Build unit :=
  match items with
  | [] => ret tt
  | item :: rest => f item >> forEach rest f
  end.

Definition template2 (a : jsval) (sep : string) (b : jsval) : jsval :=
  JStr (JS.ToString a +:+ sep +:+ JS.ToString b).

(** ** The argument builders *)

(** The messages of the errors the builders throw, as the source spells
    them. *)
Module Msg.

Definition image : string :=
  "options.image must be provided!" +:+ nl +:+ "example:" +:+ nl
  +:+ "new Container({image = 'wordpress:latest'})".

Definition health_command : string :=
  "options.health.command must not be defined to use options.health".

Definition health_retries : string :=
  "options.health.retries must be an integer.".

Definition volumes_example : string :=
  "example:" +:+ nl +:+ "new Container({" +:+ nl +:+ tab +:+ "volumes: ["
  +:+ nl +:+ tab +:+ tab
  +:+ "{ host: './example.js', docker: '/usr/bin/example.js' }"
  +:+ nl +:+ tab +:+ "]" +:+ nl +:+ "})".

Definition volumes_array : string :=
  "options.volumes must be an array" +:+ nl +:+ volumes_example.

Definition volumes_item : string :=
  "options.volumes must contain array of object with docker and host as properties"
  +:+ nl +:+ volumes_example.

Definition env_example : string :=
  "example:" +:+ nl +:+ "new Container({" +:+ nl +:+ tab
  +:+ "environmentVariables: [" +:+ nl +:+ tab +:+ tab
  +:+ "{ name: 'DOCKER_ENV', value: 'foo' }"
  +:+ nl +:+ tab +:+ "]" +:+ nl +:+ "})".

Definition env_array : string :=
  "options.environmentVariables must be an array" +:+ nl +:+ env_example.

Definition env_item : string :=
  "options.environmentVariables must contain array of object with name and value as properties"
  +:+ nl +:+ env_example.

Definition ports_example : string :=
  "example:" +:+ nl +:+ "new Container({" +:+ nl +:+ tab
  +:+ "exposePorts: [" +:+ nl +:+ tab +:+ tab
  +:+ "{ host: '8080', docker: '80' }"
  +:+ nl +:+ tab +:+ "]" +:+ nl +:+ "})".

Definition ports_array : string :=
  "options.exposePorts must be an array" +:+ nl +:+ ports_example.

(** The source words this one after [options.volumes]. *)
Definition ports_item : string :=
  "options.volumes must contain array of object with docker and host as properties"
  +:+ nl +:+ ports_example.

Definition commands : string :=
  "options.commands must be array of string.".

Definition network_name : string :=
  "options.name must be provided!" +:+ nl +:+ "example:" +:+ nl
  +:+ "new Network({ name: 'cywp-network' })".

Definition run_commands : string :=
  "options.commands must be provided to use RunInContainer.".

Definition run_rm : string :=
  "options.rm must be true to use RunInContainer. (we don't want to leave garbage aroud)".

End Msg.

(** [if (options.k) args.push(flag, options.k)] *)
Definition push_option (flag : string) (v : jsval) : Build unit :=
  when (JS.truthy v) (push [JStr flag; v]).

(** Lines 125-151: the [options.health] block. *)
Definition health_block (options : jsval) : Build unit :=
  let! health := lift (JS.Get options "health") in
  when (JS.truthy health)
    (let! command := lift (JS.Get health "command") in
     (if negb (JS.truthy command)
      then throw (Thrown TypeErrorClass Msg.health_command)
      else ret tt) >>
     push [JStr "--health-cmd"; command] >>
     let! interval := lift (JS.Get health "interval") in
     push_option "--health-interval" interval >>
     let! retries := lift (JS.Get health "retries") in
     when (JS.truthy retries)
       ((if negb (JS.isInteger retries)
         then throw (Thrown TypeErrorClass Msg.health_retries)
         else ret tt) >>
        push [JStr "--health-retries"; retries]) >>
     let! startPeriod := lift (JS.Get health "startPeriod") in
     push_option "--health-start-period" startPeriod >>
     let! timeout := lift (JS.Get health "timeout") in
     push_option "--health-timeout" timeout).

(** The body of the three [forEach] callbacks: both properties of the item
    must be truthy, and the pair is pushed as [flag, `${a}sep${b}`].  [first]
    is the property the condition reads first, [left] and [right] the ones
    the template prints. *)
Definition pair_item (flag first second left sep right : string)
    (message : string) (item : jsval) : Build unit :=
  let! a := lift (JS.Get item first) in
  let! missing :=
    (if negb (JS.truthy a) then ret true
     else let! b := lift (JS.Get item second) in ret (negb (JS.truthy b))) in
  (if missing : bool then throw (Thrown ErrorClass message) else ret tt) >>
  let! l := lift (JS.Get item left) in
  let! r := lift (JS.Get item right) in
  push [JStr flag; template2 l sep r].

(** The shape shared by lines 157-171, 173-187 and 189-203. *)
Definition list_block (v : jsval) (not_array : string)
    (item : jsval → Build unit) : Build unit :=
  when (JS.truthy v)
    (match v with
     | JArr items => forEach items item
     | _ => throw (Thrown ErrorClass not_array)
     end).

Definition volumes_block (options : jsval) : Build unit :=
  let! volumes := lift (JS.Get options "volumes") in
  list_block volumes Msg.volumes_array
    (pair_item "-v" "docker" "host" "host" ":" "docker" Msg.volumes_item).

Definition env_block (options : jsval) : Build unit :=
  let! environmentVariables := lift (JS.Get options "environmentVariables") in
  list_block environmentVariables Msg.env_array
    (pair_item "-e" "name" "value" "name" "=" "value" Msg.env_item).

Definition ports_block (options : jsval) : Build unit :=
  let! exposePorts := lift (JS.Get options "exposePorts") in
  list_block exposePorts Msg.ports_array
    (pair_item "-p" "host" "docker" "host" ":" "docker" Msg.ports_item).

(** Lines 207-213. *)
Definition commands_block (options : jsval) : Build unit :=
  let! commands := lift (JS.Get options "commands") in
  when (JS.truthy commands)
    (match commands with
     | JArr tokens => push tokens
     | _ => throw (Thrown TypeErrorClass Msg.commands)
     end).

(** Lines 109-205: the statements of [processCreateContainerOptions] from
    the declaration of [args] to the push of the image. *)
Definition statements_to_image
    (options : jsval) (run detach : bool) : Build unit :=
  when (run && negb detach) pop >>
  let! no_image :=
    (if negb (JS.truthy options) then ret true
     else let! image := lift (JS.Get options "image") in
          ret (negb (JS.truthy image))) in
  (if no_image : bool then throw (Thrown ErrorClass Msg.image) else ret tt) >>
  let! name := lift (JS.Get options "name") in
  push_option "--name" name >>
  let! network := lift (JS.Get options "network") in
  push_option "--net" network >>
  health_block options >>
  let! rm := lift (JS.Get options "rm") in
  when (JS.truthy rm) (push [JStr "--rm"]) >>
  volumes_block options >>
  env_block options >>
  ports_block options >>
  let! image := lift (JS.Get options "image") in
  push [image].

Definition processCreateContainerOptions_body
    (options : jsval) (run detach : bool) : Build unit :=
  statements_to_image options run detach >>
  commands_block options.

Definition initial_args (run : bool) : list jsval :=
  if run then [JStr "container"; JStr "run"; JStr "--detach"]
  else [JStr "container"; JStr "create"].

(** The function with the array it leaves behind, also when it throws. *)
Definition processCreateContainerOptions_trace
    (options : jsval) (run detach : bool) : (error + unit) * list jsval :=
  processCreateContainerOptions_body options run detach (initial_args run).

Definition processCreateContainerOptions
    (options : jsval) (run detach : bool) : error + list jsval :=
  match processCreateContainerOptions_trace options run detach with
  | (inr _, args) => inr args
  | (inl e, _) => inl e
  end.

Definition ProcessCreateNetworkOption (options : jsval) : error + list jsval :=
  let body : Build unit :=
    let! no_name :=
      (if negb (JS.truthy options) then ret true
       else let! name := lift (JS.Get options "name") in
            ret (negb (JS.truthy name))) in
    (if no_name : bool then throw (Thrown ErrorClass Msg.network_name) else ret tt) >>
    let! name := lift (JS.Get options "name") in
    push [name] in
  match body [JStr "network"; JStr "create"] with
  | (inr _, args) => inr args
  | (inl e, _) => inl e
  end.


(** ** The world around the [Docker] class

    An option object the caller holds lives in a store under a location, so
    that what a method writes into it is visible to the caller afterwards.
    The processes a method spawns are logged in order. *)
Definition loc := positive.

Record world := World {
  store : gmap loc (gmap string jsval);
  spawned : list (string * list jsval)
}.

(** What the parameter [options] of a method is bound to: an object of the
    caller's, by reference, or a value only the method holds (a primitive, or
    an object it has made itself). *)
Inductive operand :=
| Shared (l : loc)
| Local (v : jsval).

Definition read (w : world) (o : operand) : jsval :=
  match o with
  | Local v => v
  | Shared l => from_option JObj JUndefined (store w !! l)
  end.

Definition deref (o : operand) : Eff world jsval := λ w, (inr (read w o), w).

(** [spawn(command, args)] *)
Definition spawn (command : string) (args : list jsval) : Eff world unit :=
  λ w, (inr tt, World (store w) (spawned w ++ [(command, args)])).

(** How the spawned process ends, which is the environment's choice. *)
Inductive outcome :=
| Exited (code : Z) (stdout stderr : string)
| LaunchFailed (detail : string).

Inductive rejection :=
| ExecutionError (stderr : string)
| GenericExecutionError
| LaunchError (detail : string).

Inductive settled (A : Type) :=
| Resolved (a : A)
| Rejected (r : rejection).
Arguments Resolved {A} a.
Arguments Rejected {A} r.

(** A completion callback: it runs when the process has ended, may write to
    the store and does not throw. *)
Definition Callback (A : Type) : Type := world → A * world.

(** [options.k = x] *)
Definition assign (o : operand) (k : string) (x : jsval) : Callback operand :=
  λ w, match o with
       | Local v => (Local (JS.set_field v k x), w)
       | Shared l => (o, World (alter (insert k x) l (store w)) (spawned w))
       end.

(** Modelled from the spec: [ReturnPromise] of [src/docker/util.js], which is
    not among the sources.  Section 4.2: exit code zero resolves with the
    completion transform applied to the accumulated stdout and stderr; a
    non-zero exit code fails with an execution error whose message is the
    accumulated stderr, or a generic message when stderr is empty; a process
    that cannot be launched fails with a launch error. *)
Definition ReturnPromise {A} (p : outcome)
    (callback : string → string → Callback A) : Eff world (settled A) :=
  λ w, match p with
       | Exited 0 stdout stderr =>
           let (a, w') := callback stdout stderr w in (inr (Resolved a), w')
       | Exited _ _ EmptyString => (inr (Rejected GenericExecutionError), w)
       | Exited _ _ stderr => (inr (Rejected (ExecutionError stderr)), w)
       | LaunchFailed detail => (inr (Rejected (LaunchError detail)), w)
       end.

(** Modelled from the spec: the entity classes of [src/docker/container.js],
    [volume.js] and [network.js], which are not among the sources.  Section 3:
    a Container is the configuration fields plus [id] and [status], a Network
    the configuration fields plus [id] and [status], a Volume [name] plus
    [status]; section 4.3: no behaviour beyond field access.  The constructors
    take the fields from the options object they are given. *)
Record Container := {
  container_image : jsval;
  container_name : jsval;
  container_network : jsval;
  container_volumes : jsval;
  container_environmentVariables : jsval;
  container_exposePorts : jsval;
  container_health : jsval;
  container_rm : jsval;
  container_commands : jsval;
  container_id : jsval;
  container_status : jsval
}.

Record Volume := {
  volume_name : jsval;
  volume_status : jsval
}.

Record Network := {
  network_name : jsval;
  network_id : jsval;
  network_status : jsval
}.

Definition new_Container (options : jsval) : Container :=
  {| container_image := JS.field options "image";
     container_name := JS.field options "name";
     container_network := JS.field options "network";
     container_volumes := JS.field options "volumes";
     container_environmentVariables := JS.field options "environmentVariables";
     container_exposePorts := JS.field options "exposePorts";
     container_health := JS.field options "health";
     container_rm := JS.field options "rm";
     container_commands := JS.field options "commands";
     container_id := JS.field options "id";
     container_status := JS.field options "status" |}.

Definition new_Volume (options : jsval) : Volume :=
  {| volume_name := JS.field options "name";
     volume_status := JS.field options "status" |}.

Definition new_Network (options : jsval) : Network :=
  {| network_name := JS.field options "name";
     network_id := JS.field options "id";
     network_status := JS.field options "status" |}.

Record RunInContainerOutput := {
  output_stdout : string;
  output_stderr : string
}.

(** ** The [Docker] class

    Every method takes the outcome of the process it spawns as its last
    argument.  A configuration error is the method's own [inl]; a method that
    gets as far as the process returns the settled promise. *)
Module Docker.

(** Lines 22-29.  The callback runs after the builder has accepted
    [options], which is therefore an object: [options.rm] cannot throw. *)
Definition CreateContainer_callback (options : operand) (run : bool)
    (stdout : string) : Callback Container :=
  λ w,
    let (options, w) := assign options "id" (JStr (JS.replace stdout nl "")) w in
    let (options, w) :=
      assign options "status" (JStr (if run then "started" else "created")) w in
    let (options, w) :=
      if JS.truthy (JS.field (read w options) "rm")
      then assign options "status" (JStr "removed") w
      else (options, w) in
    (new_Container (read w options), w).

(** [run] and [detach] default to [false] and [true]. *)
Definition CreateContainer (options : operand) (run detach : option bool)
    (p : outcome) : Eff world (settled Container) :=
  let run := default false run in
  let detach := default true detach in
  let! o := deref options in
  let! args := lift (processCreateContainerOptions o run detach) in
  spawn "docker" args >>
  ReturnPromise p (λ stdout _, CreateContainer_callback options run stdout).

Definition RunInContainer (options : operand) (p : outcome)
    : Eff world (settled RunInContainerOutput) :=
  let! o := deref options in
  let! commands := lift (JS.Get o "commands") in
  (if negb (JS.truthy commands)
   then throw (Thrown TypeErrorClass Msg.run_commands)
   else ret tt) >>
  let! rm := lift (JS.Get o "rm") in
  (if negb (JS.truthy rm)
   then throw (Thrown TypeErrorClass Msg.run_rm)
   else ret tt) >>
  let! args := lift (processCreateContainerOptions o true false) in
  spawn "docker" args >>
  ReturnPromise p (λ stdout stderr w,
    ({| output_stdout := stdout; output_stderr := stderr |}, w)).

Definition CreateVolume (name : jsval) (p : outcome)
    : Eff world (settled Volume) :=
  spawn "docker" [JStr "volume"; JStr "create"; name] >>
  ReturnPromise p (λ stdout _ w,
    let options := Local (JObj ∅) in
    let (options, w) := assign options "name" (JStr (JS.replace stdout nl "")) w in
    let (options, w) := assign options "status" (JStr "alive") w in
    (new_Volume (read w options), w)).

(** Lines 81-83: a string argument is replaced by a fresh object. *)
Definition normalize (w : world) (options : operand) : operand :=
  match read w options with
  | JStr s => Local (JObj {[ "name" := JStr s ]})
  | _ => options
  end.

Definition CreateNetwork (options : operand) (p : outcome)
    : Eff world (settled Network) :=
  let! options := (λ w, (inr (normalize w options), w)) in
  let! o := deref options in
  let! args := lift (ProcessCreateNetworkOption o) in
  spawn "docker" args >>
  ReturnPromise p (λ stdout _ w,
    let (options, w) := assign options "id" (JStr (JS.replace stdout nl "")) w in
    let (options, w) := assign options "status" (JStr "alive") w in
    (new_Network (read w options), w)).

End Docker.

(** ** What the specification says, in its own terms *)
Module Spec.

(** A field counts as provided when its value is truthy. *)
Definition provided (v : jsval) : bool := JS.truthy v.

Definition optional (shape : jsval → bool) (v : jsval) : bool :=
  negb (provided v) || shape v.

(** An ordered list of pairs, each with both of its fields. *)
Definition pairs (k1 k2 : string) (v : jsval) : bool :=
  match v with
  | JArr items =>
      forallb (λ item, provided (JS.field item k1) && provided (JS.field item k2)) items
  | _ => false
  end.

(** Health check: command required, retries an integer. *)
Definition health (h : jsval) : bool :=
  provided (JS.field h "command") && optional JS.isInteger (JS.field h "retries").

(** The fields of a ContainerConfig (section 3) other than [image] and
    [commands]. *)
Definition fields (o : jsval) : bool :=
  optional health (JS.field o "health")
  && optional (pairs "host" "docker") (JS.field o "volumes")
  && optional (pairs "name" "value") (JS.field o "environmentVariables")
  && optional (pairs "host" "docker") (JS.field o "exposePorts").

Definition ContainerConfig (o : jsval) : bool :=
  fields o && optional JS.isArray (JS.field o "commands").

Definition entries (v : jsval) : list jsval :=
  match v with
  | JArr items => items
  | _ => []
  end.

Definition base_tokens (run detach : bool) : list jsval :=
  if run
  then if detach then [JStr "container"; JStr "run"; JStr "--detach"]
       else [JStr "container"; JStr "run"]
  else [JStr "container"; JStr "create"].

Definition flag_pair (flag : string) (v : jsval) : list jsval :=
  if provided v then [JStr flag; v] else [].

Definition health_tokens (h : jsval) : list jsval :=
  if provided h
  then [JStr "--health-cmd"; JS.field h "command"]
       ++ flag_pair "--health-interval" (JS.field h "interval")
       ++ flag_pair "--health-retries" (JS.field h "retries")
       ++ flag_pair "--health-start-period" (JS.field h "startPeriod")
       ++ flag_pair "--health-timeout" (JS.field h "timeout")
  else [].

Definition pair_tokens (flag left sep right : string) (v : jsval) : list jsval :=
  flat_map (λ item, [JStr flag; template2 (JS.field item left) sep (JS.field item right)])
           (entries v).

(** The sequence up to and including the image token. *)
Definition tokens_to_image (o : jsval) (run detach : bool) : list jsval :=
  base_tokens run detach
  ++ flag_pair "--name" (JS.field o "name")
  ++ flag_pair "--net" (JS.field o "network")
  ++ health_tokens (JS.field o "health")
  ++ (if provided (JS.field o "rm") then [JStr "--rm"] else [])
  ++ pair_tokens "-v" "host" ":" "docker" (JS.field o "volumes")
  ++ pair_tokens "-e" "name" "=" "value" (JS.field o "environmentVariables")
  ++ pair_tokens "-p" "host" ":" "docker" (JS.field o "exposePorts")
  ++ [JS.field o "image"].

Definition tokens (o : jsval) (run detach : bool) : list jsval :=
  tokens_to_image o run detach ++ entries (JS.field o "commands").

(** The values the caller supplies that reach the sequence unchanged. *)
Definition supplied_values (o : jsval) : list jsval :=
  let h := JS.field o "health" in
  [JS.field o "name"; JS.field o "network"; JS.field h "command";
   JS.field h "interval"; JS.field h "retries"; JS.field h "startPeriod";
   JS.field h "timeout"; JS.field o "image"]
  ++ entries (JS.field o "commands").

Definition is_space (c : ascii) : bool :=
  bool_decide (c ∈ [" "; "009"; "010"; "011"; "012"; "013"]%char).

Fixpoint trim_start (s : string) : string :=
  match s with
  | String c r => if is_space c then trim_start r else s
  | EmptyString => s
  end.

Fixpoint trim_end (s : string) : string :=
  match s with
  | EmptyString => s
  | String c r =>
      match trim_end r with
      | EmptyString => if is_space c then EmptyString else String c EmptyString
      | r' => String c r'
      end
  end.

(** Trimmed text: surrounding whitespace, line ends included, stripped. *)
Definition trim (s : string) : string := trim_end (trim_start s).

(** A message carries a usage example. *)
Definition has_example (message : string) : bool :=
  bool_decide (is_Some (String.index 0 "example:" message)).

End Spec.

Definition obj (l : list (string * jsval)) : jsval := JObj (list_to_map l).

Definition empty_world : world := World ∅ [].

Definition resolved {A} (r : (error + settled A) * world) : option A :=
  match r.1 with
  | inr (Resolved a) => Some a
  | _ => None
  end.

(** A configuration that uses every field. *)
Definition sample_config : jsval :=
  obj [("image", JStr "wordpress"); ("name", JStr "wp"); ("network", JStr "net1");
       ("rm", JBool true);
       ("health", obj [("command", JStr "curl localhost"); ("interval", JStr "5s");
                       ("retries", JNum (NInt 3)); ("startPeriod", JStr "1s");
                       ("timeout", JStr "2s")]);
       ("volumes", JArr [obj [("host", JStr "./a"); ("docker", JStr "/b")]]);
       ("environmentVariables",
         JArr [obj [("name", JStr "DOCKER_ENV"); ("value", JStr "foo")]]);
       ("exposePorts", JArr [obj [("host", JNum (NInt 8000)); ("docker", JStr "80")]]);
       ("commands", JArr [JStr "ls"; JStr "-l"])].

Definition throws_only {S A} (P : error → Prop) (m : Eff S A) : Prop :=
  ∀ s e s', m s = (inl e, s') → P e.

(** The errors of [statements_to_image], of the whole container builder and
    of the network builder. *)
Definition Error_messages : list string :=
  [Msg.image; Msg.volumes_array; Msg.volumes_item; Msg.env_array; Msg.env_item;
   Msg.ports_array; Msg.ports_item].

Definition to_image_error (e : error) : Prop :=
  match e with
  | Thrown ErrorClass message => message ∈ Error_messages
  | Thrown TypeErrorClass message =>
      message ∈ [Msg.health_command; Msg.health_retries]
  | EngineTypeError _ _ => True
  end.

Definition builder_error (e : error) : Prop :=
  match e with
  | Thrown ErrorClass message => message ∈ Error_messages
  | Thrown TypeErrorClass message =>
      message ∈ [Msg.health_command; Msg.health_retries; Msg.commands]
  | EngineTypeError _ _ => True
  end.

Fixpoint occurs (c : ascii) (s : string) : bool :=
  match s with
  | EmptyString => false
  | String c' r => bool_decide (c = c') || occurs c r
  end.

(** The operand and the world after [props] has become the content of the
    object the operand stands for. *)
Definition updated (o : operand) (props : gmap string jsval) : operand :=
  match o with
  | Shared l => Shared l
  | Local _ => Local (JObj props)
  end.

Definition write_back (o : operand) (props : gmap string jsval) (w : world) : world :=
  match o with
  | Shared l => World (<[l := props]> (store w)) (spawned w)
  | Local _ => w
  end.

Definition spawned_one (command : string) (args : list jsval) (w : world) : world :=
  World (store w) (spawned w ++ [(command, args)]).

(** The status [CreateContainer] derives. *)
Definition derived_status (o : jsval) (run : bool) : string :=
  if JS.truthy (JS.field o "rm") then "removed"
  else if run then "started" else "created".

Definition no_space (s : string) : Prop :=
  ∀ c, occurs c s = true → Spec.is_space c = false.

Definition caller_world : world :=
  World {[ 1%positive := {[ "image" := JStr "wordpress" ]} ]} [].

Definition no_rm_config : jsval :=
  obj [("image", JStr "wordpress"); ("commands", JArr [JStr "ls"])].

Definition empty_commands_config : jsval :=
  obj [("image", JStr "wordpress"); ("rm", JBool true); ("commands", JArr [])].

Inductive pair_list := Volumes | EnvironmentVariables | ExposePorts.

Definition pair_list_field (b : pair_list) : string :=
  match b with
  | Volumes => "volumes"
  | EnvironmentVariables => "environmentVariables"
  | ExposePorts => "exposePorts"
  end.

Definition pair_list_keys (b : pair_list) : string * string :=
  match b with
  | Volumes => ("host", "docker")
  | EnvironmentVariables => ("name", "value")
  | ExposePorts => ("host", "docker")
  end.

Definition pair_list_message (b : pair_list) : string :=
  match b with
  | Volumes => Msg.volumes_item
  | EnvironmentVariables => Msg.env_item
  | ExposePorts => Msg.ports_item
  end.

(** The lists the builder goes through before it reaches list [b]. *)
Definition earlier_lists (b : pair_list) (o : jsval) : bool :=
  match b with
  | Volumes => true
  | EnvironmentVariables =>
      Spec.optional (Spec.pairs "host" "docker") (JS.field o "volumes")
  | ExposePorts =>
      Spec.optional (Spec.pairs "host" "docker") (JS.field o "volumes")
      && Spec.optional (Spec.pairs "name" "value") (JS.field o "environmentVariables")
  end.

Definition tokens_to_rm (o : jsval) (run detach : bool) : list jsval :=
  Spec.base_tokens run detach
  ++ Spec.flag_pair "--name" (JS.field o "name")
  ++ Spec.flag_pair "--net" (JS.field o "network")
  ++ Spec.health_tokens (JS.field o "health")
  ++ (if Spec.provided (JS.field o "rm") then [JStr "--rm"] else []).

Definition zero_retries_config : jsval :=
  obj [("image", JStr "wordpress");
       ("health", obj [("command", JStr "true"); ("retries", JNum (NInt 0))])].

Definition zero_port_config : jsval :=
  obj [("image", JStr "wordpress");
       ("exposePorts", JArr [obj [("host", JNum (NInt 8000)); ("docker", JStr "80")];
                             obj [("host", JNum (NInt 0)); ("docker", JStr "80")]])].

Definition create_with_commands_config : jsval :=
  obj [("image", JStr "wordpress"); ("commands", JArr [JStr "ls"])].

(** The outcome of a computation does not depend on the state it starts
    from. *)
Definition state_blind {S A} (m : Eff S A) : Prop :=
  ∀ s s', (m s).1 = (m s').1.

(** The tokens that follow the base tokens. *)
Definition tokens_after_base (o : jsval) : list jsval :=
  Spec.flag_pair "--name" (JS.field o "name")
  ++ Spec.flag_pair "--net" (JS.field o "network")
  ++ Spec.health_tokens (JS.field o "health")
  ++ (if Spec.provided (JS.field o "rm") then [JStr "--rm"] else [])
  ++ Spec.pair_tokens "-v" "host" ":" "docker" (JS.field o "volumes")
  ++ Spec.pair_tokens "-e" "name" "=" "value" (JS.field o "environmentVariables")
  ++ Spec.pair_tokens "-p" "host" ":" "docker" (JS.field o "exposePorts")
  ++ [JS.field o "image"]
  ++ Spec.entries (JS.field o "commands").

Definition no_image_config : jsval :=
  obj [("name", JStr "wp"); ("commands", JStr "ls")].

(** What the builder says when list [b] is not a list, and the property of
    an entry of list [b] that it reads first. *)
Definition pair_list_not_array (b : pair_list) : string :=
  match b with
  | Volumes => Msg.volumes_array
  | EnvironmentVariables => Msg.env_array
  | ExposePorts => Msg.ports_array
  end.

Definition pair_list_first_read (b : pair_list) : string :=
  match b with
  | Volumes => "docker"
  | EnvironmentVariables => "name"
  | ExposePorts => "host"
  end.

Definition pair_list_block (b : pair_list) : jsval → Build unit :=
  match b with
  | Volumes => volumes_block
  | EnvironmentVariables => env_block
  | ExposePorts => ports_block
  end.

Definition is_nullish (v : jsval) : bool :=
  match v with
  | JUndefined | JNull => true
  | _ => false
  end.

(** The engine's own [TypeError] comes from reading the first property of a
    list entry that is [undefined] or [null]. *)
Definition entry_read_error (e : error) : Prop :=
  match e with
  | EngineTypeError k v => is_nullish v = true ∧ k ∈ ["docker"; "name"; "host"]
  | Thrown _ _ => True
  end.

Definition bad_health_config : jsval :=
  obj [("image", JStr "wordpress"); ("health", JBool true);
       ("volumes", JStr "not a list")].

Definition bad_retries_config : jsval :=
  obj [("image", JStr "wordpress");
       ("health", obj [("command", JStr "true"); ("retries", JStr "abc")]);
       ("commands", JStr "ls")].

Definition volumes_string_config : jsval :=
  obj [("image", JStr "wordpress"); ("volumes", JStr "./a:/b")].

Definition null_entry_config : jsval :=
  obj [("image", JStr "wordpress");
       ("environmentVariables",
         JArr [obj [("name", JStr "A"); ("value", JStr "1")]; JNull])].

(** A call has thrown before spawning, or has spawned exactly one [docker]
    process. *)
Definition throws_or_spawns_once {A} (w : world)
    (r : (error + settled A) * world) : Prop :=
  (∃ e, r = (inl e, w))
  ∨ (∃ st args, r.1 = inr st ∧ spawned r.2 = spawned w ++ [("docker", args)]).

Definition run_config : jsval :=
  obj [("image", JStr "wordpress"); ("rm", JBool true);
       ("commands", JArr [JStr "wp"; JStr "--info"])].

Definition network_world : world :=
  World {[ 1%positive := {[ "name" := JStr "net1" ]} ]} [].

(** [commands] is there, is not a list, and is falsy. *)
Definition falsy_commands_config : jsval :=
  obj [("image", JStr "wordpress"); ("commands", JStr "")].

(** * Properties *)


(** ** Running the effects *)

Lemma bind_returns {S A B} (m : Eff S A) (f : A → Eff S B) s a s' :
  m s = (inr a, s') → bind m f s = f a s'.
Proof. intros H. unfold bind. by rewrite H. Qed.

Lemma bind_throws {S A B} (m : Eff S A) (f : A → Eff S B) s e s' :
  m s = (inl e, s') → bind m f s = (inl e, s').
Proof. intros H. unfold bind. by rewrite H. Qed.

Lemma field_provided_Get v k k' :
  JS.truthy (JS.field v k) = true → JS.Get v k' = inr (JS.field v k').
Proof. by destruct v. Qed.

Lemma truthy_Get v k : JS.truthy v = true → JS.Get v k = inr (JS.field v k).
Proof. by destruct v. Qed.

Lemma push_option_tokens flag v args :
  push_option flag v args = (inr tt, args ++ Spec.flag_pair flag v).
Proof.
  unfold push_option, Spec.flag_pair, Spec.provided, when.
  destruct (JS.truthy v); [done|]. unfold ret. by rewrite app_nil_r.
Qed.

Example ex_build :
  processCreateContainerOptions sample_config true false
  = inr [JStr "container"; JStr "run"; JStr "--name"; JStr "wp";
         JStr "--net"; JStr "net1";
         JStr "--health-cmd"; JStr "curl localhost"; JStr "--health-interval"; JStr "5s";
         JStr "--health-retries"; JNum (NInt 3); JStr "--health-start-period"; JStr "1s";
         JStr "--health-timeout"; JStr "2s";
         JStr "--rm"; JStr "-v"; JStr "./a:/b"; JStr "-e"; JStr "DOCKER_ENV=foo";
         JStr "-p"; JStr "8000:80";
         JStr "wordpress"; JStr "ls"; JStr "-l"].
Proof. vm_compute. reflexivity. Qed.

Example ex_spec_tokens :
  Spec.tokens sample_config true false
  = [JStr "container"; JStr "run"; JStr "--name"; JStr "wp";
         JStr "--net"; JStr "net1";
         JStr "--health-cmd"; JStr "curl localhost"; JStr "--health-interval"; JStr "5s";
         JStr "--health-retries"; JNum (NInt 3); JStr "--health-start-period"; JStr "1s";
         JStr "--health-timeout"; JStr "2s";
         JStr "--rm"; JStr "-v"; JStr "./a:/b"; JStr "-e"; JStr "DOCKER_ENV=foo";
         JStr "-p"; JStr "8000:80";
         JStr "wordpress"; JStr "ls"; JStr "-l"].
Proof. vm_compute. reflexivity. Qed.

Example ex_trim : Spec.trim (" abc " +:+ nl) = "abc".
Proof. vm_compute. reflexivity. Qed.

Example ex_has_example :
  Spec.has_example Msg.image = true ∧ Spec.has_example Msg.commands = false.
Proof. vm_compute. done. Qed.

Example ex_net :
  Docker.CreateNetwork (Local (JStr "net1")) (Exited 0 ("abc123" +:+ nl) "") empty_world
  = (inr (Resolved {| network_name := JStr "net1"; network_id := JStr "abc123";
                      network_status := JStr "alive" |}),
     World ∅ [("docker", [JStr "network"; JStr "create"; JStr "net1"])]).
Proof. vm_compute. reflexivity. Qed.

(** ** The token sequence of a well-shaped configuration *)

Ltac run_step lem := erewrite bind_returns; [| solve [lem] ].

Lemma base_tokens_built run detach :
  when (run && negb detach) pop (initial_args run)
  = (inr tt, Spec.base_tokens run detach).
Proof. by destruct run, detach. Qed.

Lemma pair_item_tokens flag first second left sep right message item args :
  JS.truthy (JS.field item first) = true →
  JS.truthy (JS.field item second) = true →
  pair_item flag first second left sep right message item args
  = (inr tt, args ++ [JStr flag; template2 (JS.field item left) sep (JS.field item right)]).
Proof.
  intros H1 H2. unfold pair_item, bind, lift, ret, throw, push.
  rewrite !(field_provided_Get item first _ H1). by rewrite H1, H2.
Qed.

Lemma forEach_pair_tokens flag first second left sep right message items :
  forallb (λ item, JS.truthy (JS.field item first) && JS.truthy (JS.field item second)) items = true →
  ∀ args,
    forEach items (pair_item flag first second left sep right message) args
    = (inr tt, args ++ flat_map (λ item, [JStr flag; template2 (JS.field item left) sep (JS.field item right)]) items).
Proof.
  induction items as [|item items IH]; intros Hall args; simpl.
  - unfold ret. by rewrite app_nil_r.
  - simpl in Hall. apply andb_prop in Hall as [Hitem Hall].
    apply andb_prop in Hitem as [H1 H2].
    erewrite bind_returns by (by apply pair_item_tokens).
    rewrite IH by done. by rewrite <- app_assoc.
Qed.

Lemma forallb_swap (p q : jsval → bool) items :
  forallb (λ item, p item && q item) items = forallb (λ item, q item && p item) items.
Proof.
  induction items as [|x items IH]; simpl; [done|].
  rewrite IH. f_equal. apply andb_comm.
Qed.

Lemma list_block_tokens flag first second left sep right not_array message v args :
  (Spec.optional (Spec.pairs first second) v = true
   ∨ Spec.optional (Spec.pairs second first) v = true) →
  list_block v not_array (pair_item flag first second left sep right message) args
  = (inr tt, args ++ Spec.pair_tokens flag left sep right v).
Proof.
  intros H. unfold list_block, when, Spec.pair_tokens.
  assert (Spec.optional (Spec.pairs first second) v = true) as Hv.
  { destruct H as [H|H]; [done|]. unfold Spec.optional, Spec.pairs in *.
    destruct v; try done. by rewrite forallb_swap. }
  unfold Spec.optional, Spec.provided in Hv.
  destruct (JS.truthy v) eqn:Htruthy; simpl in Hv.
  - destruct v; try done. simpl. by apply forEach_pair_tokens.
  - destruct v; try done; unfold ret; by rewrite app_nil_r.
Qed.

Lemma health_block_tokens o args :
  JS.truthy (JS.field o "image") = true →
  Spec.optional Spec.health (JS.field o "health") = true →
  health_block o args = (inr tt, args ++ Spec.health_tokens (JS.field o "health")).
Proof.
  intros Himage Hhealth. unfold health_block, Spec.health_tokens, Spec.provided.
  run_step ltac:(unfold lift; by rewrite (field_provided_Get _ _ _ Himage)).
  unfold Spec.optional, Spec.provided in Hhealth.
  destruct (JS.truthy (JS.field o "health")) eqn:Hh; simpl in Hhealth |- *.
  2: { unfold ret. by rewrite app_nil_r. }
  apply andb_prop in Hhealth as [Hcommand Hretries].
  unfold Spec.provided in Hcommand.
  pose proof (truthy_Get _ "command" Hh) as Gcommand.
  pose proof (truthy_Get _ "interval" Hh) as Ginterval.
  pose proof (truthy_Get _ "retries" Hh) as Gretries.
  pose proof (truthy_Get _ "startPeriod" Hh) as GstartPeriod.
  pose proof (truthy_Get _ "timeout" Hh) as Gtimeout.
  run_step ltac:(unfold lift; by rewrite Gcommand).
  rewrite Hcommand. simpl.
  run_step ltac:(reflexivity).
  run_step ltac:(reflexivity).
  run_step ltac:(unfold lift; by rewrite Ginterval).
  run_step ltac:(apply push_option_tokens).
  run_step ltac:(unfold lift; by rewrite Gretries).
  erewrite bind_returns
    with (s' := _ ++ Spec.flag_pair "--health-retries"
                       (JS.field (JS.field o "health") "retries")).
  2: { unfold Spec.flag_pair, Spec.provided, Spec.optional, Spec.provided in *.
       destruct (JS.truthy (JS.field (JS.field o "health") "retries")); simpl in *.
       - rewrite Hretries. simpl. run_step ltac:(reflexivity). reflexivity.
       - unfold ret. by rewrite app_nil_r. }
  run_step ltac:(unfold lift; by rewrite GstartPeriod).
  run_step ltac:(apply push_option_tokens).
  run_step ltac:(unfold lift; by rewrite Gtimeout).
  rewrite push_option_tokens. unfold push. by rewrite <- !app_assoc.
Qed.

Lemma commands_block_tokens o args :
  JS.truthy (JS.field o "image") = true →
  Spec.optional JS.isArray (JS.field o "commands") = true →
  commands_block o args = (inr tt, args ++ Spec.entries (JS.field o "commands")).
Proof.
  intros Himage Hcommands. unfold commands_block.
  run_step ltac:(unfold lift; by rewrite (field_provided_Get _ _ _ Himage)).
  unfold Spec.optional, Spec.provided in Hcommands.
  destruct (JS.truthy (JS.field o "commands")) eqn:Htruthy; simpl in *.
  - by destruct (JS.field o "commands").
  - unfold ret. destruct (JS.field o "commands"); try done; by rewrite app_nil_r.
Qed.

Lemma statements_to_image_tokens o run detach :
  JS.truthy (JS.field o "image") = true →
  Spec.fields o = true →
  statements_to_image o run detach (initial_args run)
  = (inr tt, Spec.tokens_to_image o run detach).
Proof.
  intros Himage Hfields.
  unfold Spec.fields in Hfields.
  apply andb_prop in Hfields as [Hfields Hports].
  apply andb_prop in Hfields as [Hfields Henv].
  apply andb_prop in Hfields as [Hhealth Hvolumes].
  assert (JS.truthy o = true) as Ho by (by destruct o).
  unfold statements_to_image.
  run_step ltac:(apply base_tokens_built).
  rewrite Ho. simpl.
  run_step ltac:(erewrite bind_returns;
                 [| unfold lift; by rewrite (truthy_Get _ _ Ho)]; by rewrite Himage).
  simpl. run_step ltac:(reflexivity).
  run_step ltac:(unfold lift; by rewrite (truthy_Get _ _ Ho)).
  run_step ltac:(apply push_option_tokens).
  run_step ltac:(unfold lift; by rewrite (truthy_Get _ _ Ho)).
  run_step ltac:(apply push_option_tokens).
  run_step ltac:(by apply health_block_tokens).
  run_step ltac:(unfold lift; by rewrite (truthy_Get _ _ Ho)).
  erewrite bind_returns
    with (s' := _ ++ (if Spec.provided (JS.field o "rm") then [JStr "--rm"] else [])).
  2: { unfold Spec.provided, when. destruct (JS.truthy (JS.field o "rm")); [done|].
       unfold ret. by rewrite app_nil_r. }
  run_step ltac:(unfold volumes_block;
                 erewrite bind_returns;
                 [| unfold lift; by rewrite (truthy_Get _ _ Ho)];
                 apply list_block_tokens; by right).
  run_step ltac:(unfold env_block;
                 erewrite bind_returns;
                 [| unfold lift; by rewrite (truthy_Get _ _ Ho)];
                 apply list_block_tokens; by left).
  run_step ltac:(unfold ports_block;
                 erewrite bind_returns;
                 [| unfold lift; by rewrite (truthy_Get _ _ Ho)];
                 apply list_block_tokens; by left).
  run_step ltac:(unfold lift; by rewrite (truthy_Get _ _ Ho)).
  unfold push, Spec.tokens_to_image. by rewrite <- !app_assoc.
Qed.

Lemma body_reaches_commands o run detach :
  JS.truthy (JS.field o "image") = true →
  Spec.fields o = true →
  processCreateContainerOptions_trace o run detach
  = commands_block o (Spec.tokens_to_image o run detach).
Proof.
  intros Himage Hfields.
  unfold processCreateContainerOptions_trace, processCreateContainerOptions_body.
  by run_step ltac:(by apply statements_to_image_tokens).
Qed.

Lemma builder_returns_tokens o run detach :
  Spec.ContainerConfig o = true →
  JS.truthy (JS.field o "image") = true →
  processCreateContainerOptions o run detach = inr (Spec.tokens o run detach).
Proof.
  intros Hconfig Himage. apply andb_prop in Hconfig as [Hfields Hcommands].
  unfold processCreateContainerOptions.
  rewrite body_reaches_commands by done.
  by rewrite commands_block_tokens.
Qed.



(** ** Which errors the builders throw *)

Section throws_only.
Context {S : Type} (P : error → Prop).

Lemma throws_only_ret {A} (a : A) : throws_only P (ret (S := S) a).
Proof. intros s e s' H. discriminate. Qed.

Lemma throws_only_throw {A} e : P e → throws_only P (throw (S := S) (A := A) e).
Proof. intros He s e' s' H. unfold throw in H. by simplify_eq. Qed.

Lemma throws_only_bind {A B} (m : Eff S A) (f : A → Eff S B) :
  throws_only P m → (∀ a, throws_only P (f a)) → throws_only P (bind m f).
Proof.
  intros Hm Hf s e s' H. unfold bind in H.
  destruct (m s) as [[e1|a] s1] eqn:Hms.
  - simplify_eq. by eapply Hm.
  - by eapply Hf.
Qed.

Lemma throws_only_Get v k :
  P (EngineTypeError k v) → throws_only P (lift (S := S) (JS.Get v k)).
Proof.
  intros He s e s' H. unfold lift, JS.Get in H. destruct v; by simplify_eq.
Qed.

Lemma throws_only_when c (m : Eff S unit) :
  throws_only P m → throws_only P (when c m).
Proof. intros Hm. destruct c; [done|]. apply throws_only_ret. Qed.

End throws_only.

Lemma throws_only_push P xs : throws_only P (push xs).
Proof. intros s e s' H. discriminate. Qed.

Lemma throws_only_pop P : throws_only P pop.
Proof. intros s e s' H. discriminate. Qed.

Lemma throws_only_forEach P items f :
  (∀ item, throws_only P (f item)) → throws_only P (forEach items f).
Proof.
  intros Hf. induction items as [|item items IH]; simpl.
  - apply throws_only_ret.
  - apply throws_only_bind; [apply Hf | by intros _].
Qed.

Ltac throws_only_step :=
  first
    [ apply throws_only_bind; [| intros ? ]
    | apply throws_only_ret
    | apply throws_only_push
    | apply throws_only_pop
    | apply throws_only_when
    | apply throws_only_forEach; intros ?
    | apply throws_only_Get
    | apply throws_only_throw
    | match goal with
      | |- throws_only _ (if ?c then _ else _) => destruct c
      | |- throws_only _ (match ?v with _ => _ end) => destruct v
      end ].

Lemma to_image_builder_error e : to_image_error e → builder_error e.
Proof.
  destruct e as [[] message|]; simpl; try done.
  rewrite !elem_of_cons. tauto.
Qed.

Lemma statements_to_image_throws o run detach :
  throws_only to_image_error (statements_to_image o run detach).
Proof.
  unfold statements_to_image, health_block, volumes_block, env_block, ports_block,
    list_block, pair_item, push_option.
  repeat throws_only_step; unfold to_image_error, Error_messages; try exact I;
    rewrite !elem_of_cons; auto 10.
Qed.

Lemma commands_block_throws o :
  throws_only builder_error (commands_block o).
Proof.
  unfold commands_block.
  repeat throws_only_step; unfold builder_error; try exact I;
    rewrite !elem_of_cons; auto 10.
Qed.

Lemma throws_only_weaken {S A} (P Q : error → Prop) (m : Eff S A) :
  (∀ e, P e → Q e) → throws_only P m → throws_only Q m.
Proof. intros HPQ Hm s e s' H. apply HPQ. by eapply Hm. Qed.

Lemma body_throws o run detach :
  throws_only builder_error (processCreateContainerOptions_body o run detach).
Proof.
  apply throws_only_bind.
  - eapply throws_only_weaken; [apply to_image_builder_error|].
    apply statements_to_image_throws.
  - intros _. apply commands_block_throws.
Qed.

Lemma processCreateContainerOptions_throws o run detach e :
  processCreateContainerOptions o run detach = inl e → builder_error e.
Proof.
  unfold processCreateContainerOptions, processCreateContainerOptions_trace.
  destruct (processCreateContainerOptions_body _ _ _ _) as [[e'|[]] args] eqn:H;
    intros [= <-].
  by eapply body_throws.
Qed.

Lemma ProcessCreateNetworkOption_throws o cls message :
  ProcessCreateNetworkOption o = inl (Thrown cls message) →
  cls = ErrorClass ∧ message = Msg.network_name.
Proof.
  unfold ProcessCreateNetworkOption.
  match goal with |- context [?m [JStr "network"; JStr "create"]] =>
    assert (throws_only (λ e, ∀ c msg, e = Thrown c msg →
                                c = ErrorClass ∧ msg = Msg.network_name) m) as Hm
  end.
  { repeat throws_only_step; intros c msg ?; by simplify_eq. }
  match goal with |- context [?m [JStr "network"; JStr "create"]] =>
    destruct (m [JStr "network"; JStr "create"]) as [[e'|[]] args] eqn:H
  end; intros ?; simplify_eq.
  by eapply Hm.
Qed.

(** ** What a normal return of the builder implies *)

Lemma bind_returns_inv {S A B} (m : Eff S A) (f : A → Eff S B) s b s' :
  bind m f s = (inr b, s') → ∃ a s1, m s = (inr a, s1) ∧ f a s1 = (inr b, s').
Proof.
  unfold bind. destruct (m s) as [[e|a] s1]; intros H; [discriminate|]. eauto.
Qed.

Lemma Get_returns_inv {S} v k a (s s' : S) :
  lift (JS.Get v k) s = (inr a, s') → a = JS.field v k ∧ s' = s ∧ JS.Get v k = inr a.
Proof. unfold lift, JS.Get. destruct v; intros H; simplify_eq; auto. Qed.

Lemma pair_item_returns_inv flag first second left sep right message item args args' :
  pair_item flag first second left sep right message item args = (inr tt, args') →
  JS.truthy (JS.field item first) = true ∧ JS.truthy (JS.field item second) = true.
Proof.
  intros H. unfold pair_item in H.
  apply bind_returns_inv in H as (a & s1 & Ha & H).
  apply Get_returns_inv in Ha as (-> & -> & Ga).
  apply bind_returns_inv in H as (missing & s1 & Hmissing & H).
  apply bind_returns_inv in H as ([] & s2 & Hthrow & _).
  destruct missing; [discriminate|]. clear Hthrow.
  destruct (JS.truthy (JS.field item first)); simpl in Hmissing; [|discriminate].
  apply bind_returns_inv in Hmissing as (b & s3 & Hb & Hmissing).
  apply Get_returns_inv in Hb as (-> & -> & Gb).
  unfold ret in Hmissing. simplify_eq.
  by destruct (JS.truthy (JS.field item second)).
Qed.

Lemma forEach_pair_returns_inv flag first second left sep right message items :
  ∀ args args',
    forEach items (pair_item flag first second left sep right message) args = (inr tt, args') →
    forallb (λ item, JS.truthy (JS.field item first) && JS.truthy (JS.field item second)) items = true.
Proof.
  induction items as [|item items IH]; intros args args' H; simpl in *; [done|].
  apply bind_returns_inv in H as ([] & s1 & Hitem & H).
  apply pair_item_returns_inv in Hitem as [-> ->]. simpl. by eapply IH.
Qed.

Lemma list_block_returns_inv flag first second left sep right not_array message v args args' :
  list_block v not_array (pair_item flag first second left sep right message) args = (inr tt, args') →
  Spec.optional (Spec.pairs first second) v = true.
Proof.
  unfold list_block, when, Spec.optional, Spec.provided. intros H.
  destruct (JS.truthy v); [|done]. simpl.
  destruct v; try discriminate. simpl. by eapply forEach_pair_returns_inv.
Qed.

Lemma optional_pairs_swap k1 k2 v :
  Spec.optional (Spec.pairs k1 k2) v = Spec.optional (Spec.pairs k2 k1) v.
Proof.
  unfold Spec.optional, Spec.pairs. destruct v; try done. by rewrite forallb_swap.
Qed.

Lemma health_block_returns_inv o args args' :
  health_block o args = (inr tt, args') →
  Spec.optional Spec.health (JS.field o "health") = true.
Proof.
  intros H. unfold health_block in H.
  apply bind_returns_inv in H as (h & s1 & Hh & H).
  apply Get_returns_inv in Hh as (-> & -> & _).
  unfold Spec.optional at 1. unfold Spec.health, Spec.optional, Spec.provided, when in *.
  destruct (JS.truthy (JS.field o "health")); [|done]. simpl.
  apply bind_returns_inv in H as (command & s1 & Hcommand & H).
  apply Get_returns_inv in Hcommand as (-> & -> & _).
  apply bind_returns_inv in H as ([] & s1 & Hthrow & H).
  destruct (JS.truthy (JS.field (JS.field o "health") "command")); [|discriminate].
  simpl. clear Hthrow.
  apply bind_returns_inv in H as ([] & s2 & _ & H).
  apply bind_returns_inv in H as (interval & s3 & _ & H).
  apply bind_returns_inv in H as ([] & s4 & _ & H).
  apply bind_returns_inv in H as (retries & s5 & Hretries & H).
  apply Get_returns_inv in Hretries as (-> & -> & _).
  apply bind_returns_inv in H as ([] & s6 & Hcheck & _).
  destruct (JS.truthy (JS.field (JS.field o "health") "retries")); [|done]. simpl.
  apply bind_returns_inv in Hcheck as ([] & s7 & Hcheck & _).
  by destruct (JS.isInteger (JS.field (JS.field o "health") "retries")).
Qed.

Lemma commands_block_returns_inv o args args' :
  commands_block o args = (inr tt, args') →
  Spec.optional JS.isArray (JS.field o "commands") = true.
Proof.
  intros H. unfold commands_block in H.
  apply bind_returns_inv in H as (commands & s1 & Hcommands & H).
  apply Get_returns_inv in Hcommands as (-> & -> & _).
  unfold Spec.optional, Spec.provided, when in *.
  destruct (JS.truthy (JS.field o "commands")); [|done].
  by destruct (JS.field o "commands").
Qed.

Lemma statements_to_image_returns_inv o run detach args args' :
  statements_to_image o run detach args = (inr tt, args') →
  JS.truthy (JS.field o "image") = true ∧ Spec.fields o = true.
Proof.
  intros H. unfold statements_to_image in H.
  apply bind_returns_inv in H as ([] & s1 & _ & H).
  apply bind_returns_inv in H as (no_image & s2 & Hno_image & H).
  apply bind_returns_inv in H as ([] & s3 & Hthrow & H).
  destruct no_image; [discriminate|]. clear Hthrow.
  assert (JS.truthy (JS.field o "image") = true) as Himage.
  { destruct (JS.truthy o); simpl in Hno_image; [|discriminate].
    apply bind_returns_inv in Hno_image as (image & s4 & Himage & Hno_image).
    apply Get_returns_inv in Himage as (-> & -> & _).
    unfold ret in Hno_image. simplify_eq.
    by destruct (JS.truthy (JS.field o "image")). }
  split; [done|].
  apply bind_returns_inv in H as (name & s4 & _ & H).
  apply bind_returns_inv in H as ([] & s5 & _ & H).
  apply bind_returns_inv in H as (network & s6 & _ & H).
  apply bind_returns_inv in H as ([] & s7 & _ & H).
  apply bind_returns_inv in H as ([] & s8 & Hhealth & H).
  apply bind_returns_inv in H as (rm & s9 & _ & H).
  apply bind_returns_inv in H as ([] & s10 & _ & H).
  apply bind_returns_inv in H as ([] & s11 & Hvolumes & H).
  apply bind_returns_inv in H as ([] & s12 & Henv & H).
  apply bind_returns_inv in H as ([] & s13 & Hports & H).
  unfold Spec.fields.
  apply health_block_returns_inv in Hhealth as ->.
  unfold volumes_block in Hvolumes.
  apply bind_returns_inv in Hvolumes as (volumes & ? & Hget & Hvolumes).
  apply Get_returns_inv in Hget as (-> & -> & _).
  apply list_block_returns_inv in Hvolumes. rewrite optional_pairs_swap in Hvolumes.
  rewrite Hvolumes.
  unfold env_block in Henv.
  apply bind_returns_inv in Henv as (env & ? & Hget & Henv).
  apply Get_returns_inv in Hget as (-> & -> & _).
  apply list_block_returns_inv in Henv as ->.
  unfold ports_block in Hports.
  apply bind_returns_inv in Hports as (ports & ? & Hget & Hports).
  apply Get_returns_inv in Hget as (-> & -> & _).
  by apply list_block_returns_inv in Hports as ->.
Qed.

(** The builder returns normally on the well-shaped configurations with an
    image and on no others. *)
Lemma builder_returns_iff o run detach :
  (∃ args, processCreateContainerOptions o run detach = inr args)
  ↔ Spec.ContainerConfig o = true ∧ Spec.provided (JS.field o "image") = true.
Proof.
  split.
  - intros [args H].
    unfold processCreateContainerOptions, processCreateContainerOptions_trace,
      processCreateContainerOptions_body in H.
    destruct (bind _ _ _) as [[e|[]] args'] eqn:Hbody; [discriminate|].
    apply bind_returns_inv in Hbody as ([] & s1 & Hto_image & Hcommands).
    apply statements_to_image_returns_inv in Hto_image as [Himage Hfields].
    apply commands_block_returns_inv in Hcommands.
    unfold Spec.ContainerConfig. by rewrite Hfields, Hcommands.
  - intros [Hconfig Himage].
    exists (Spec.tokens o run detach). by apply builder_returns_tokens.
Qed.

(** C7 (as amended).  The errors of class [Error] that the builders throw
    (image or network name missing, a list-valued option that is not a list,
    an entry without one of its pair fields) carry a usage example in their
    message; the [TypeError]s of the container builder, for a health block
    without command, a non-integer [health.retries] and a [commands] that is
    not a list, carry none. *)
Theorem builder_error_examples (o : jsval) (run detach : bool)
    (cls : error_class) (message : string) :
  processCreateContainerOptions o run detach = inl (Thrown cls message)
  ∨ ProcessCreateNetworkOption o = inl (Thrown cls message) →
  (cls = ErrorClass ↔ Spec.has_example message = true)
  ∧ (cls = TypeErrorClass →
     message ∈ [Msg.health_command; Msg.health_retries; Msg.commands]).
Proof.
  intros [H|H].
  - apply processCreateContainerOptions_throws in H.
    destruct cls; simpl in H; unfold Error_messages in H;
      rewrite !elem_of_cons, elem_of_nil in H.
    + split; [|done]. split; [intros _|done].
      destruct H as [->|[->|[->|[->|[->|[->|[->|[]]]]]]]]; by vm_compute.
    + split; [|by rewrite !elem_of_cons, elem_of_nil].
      split; [done|].
      destruct H as [->|[->|[->|[]]]]; by vm_compute.
  - apply ProcessCreateNetworkOption_throws in H as [-> ->].
    split; [|done]. split; [intros _; by vm_compute|done].
Qed.

Lemma builder_error_examples_witness :
  (ErrorClass = ErrorClass ↔ Spec.has_example Msg.image = true)
  ∧ (ErrorClass = TypeErrorClass →
     Msg.image ∈ [Msg.health_command; Msg.health_retries; Msg.commands]).
Proof.
  apply (builder_error_examples (obj [("name", JStr "wp")]) false true).
  left. by vm_compute.
Defined.

Lemma health_errors_without_example :
  processCreateContainerOptions
    (obj [("image", JStr "wordpress"); ("health", obj [])]) false true
  = inl (Thrown TypeErrorClass Msg.health_command)
  ∧ Spec.has_example Msg.health_command = false
  ∧ processCreateContainerOptions
      (obj [("image", JStr "wordpress");
            ("health", obj [("command", JStr "true"); ("retries", JNum (NFrac "3.5"))])])
      false true
    = inl (Thrown TypeErrorClass Msg.health_retries)
  ∧ Spec.has_example Msg.health_retries = false.
Proof. by vm_compute. Qed.

(** ** The check of [commands] *)

Lemma commands_not_array_object o :
  JS.truthy (JS.field o "commands") = true → JS.truthy o = true.
Proof. by destruct o. Qed.

Lemma commands_block_rejects o args :
  JS.truthy (JS.field o "commands") = true →
  JS.isArray (JS.field o "commands") = false →
  commands_block o args = (inl (Thrown TypeErrorClass Msg.commands), args).
Proof.
  intros Htruthy Harray. unfold commands_block.
  run_step ltac:(unfold lift; by rewrite (field_provided_Get _ _ _ Htruthy)).
  rewrite Htruthy. simpl. by destruct (JS.field o "commands").
Qed.

Lemma commands_error_not_to_image :
  ¬ to_image_error (Thrown TypeErrorClass Msg.commands).
Proof. simpl. rewrite !elem_of_cons, elem_of_nil. by intros [|[|]]. Qed.

(** C9 (as amended).  When [commands] is provided, that is truthy, and is
    not a list the container builder throws.  The error is the [TypeError] of the commands check exactly when
    the image is provided and every other field is well shaped, and the
    argument array then holds the sequence up to and including the image
    token, so the check comes last.  [CreateContainer] and [RunInContainer]
    both fail on such options without spawning a process. *)
Theorem commands_not_a_list (o : jsval) (run detach : bool) :
  Spec.provided (JS.field o "commands") = true →
  JS.isArray (JS.field o "commands") = false →
  (∃ e, processCreateContainerOptions o run detach = inl e)
  ∧ (processCreateContainerOptions o run detach = inl (Thrown TypeErrorClass Msg.commands)
     ↔ Spec.provided (JS.field o "image") = true ∧ Spec.fields o = true)
  ∧ (∀ args,
       processCreateContainerOptions_trace o run detach
       = (inl (Thrown TypeErrorClass Msg.commands), args) →
       args = Spec.tokens_to_image o run detach
       ∧ last args = Some (JS.field o "image"))
  ∧ (∀ options w r d p,
       read w options = o →
       ∃ e, Docker.CreateContainer options r d p w = (inl e, w))
  ∧ (∀ options w p,
       read w options = o →
       ∃ e, Docker.RunInContainer options p w = (inl e, w)).
Proof.
  intros Hprovided Harray. unfold Spec.provided in *.
  assert (∀ r d, ∃ e, processCreateContainerOptions o r d = inl e) as Hthrows.
  { intros r d.
    unfold processCreateContainerOptions, processCreateContainerOptions_trace,
      processCreateContainerOptions_body.
    destruct (statements_to_image o r d (initial_args r)) as [[e|[]] s1] eqn:H.
    - exists e. by erewrite bind_throws.
    - eexists. erewrite bind_returns by done. by rewrite commands_block_rejects. }
  assert (∀ args,
    processCreateContainerOptions_trace o run detach
    = (inl (Thrown TypeErrorClass Msg.commands), args) →
    JS.truthy (JS.field o "image") = true ∧ Spec.fields o = true) as Hlast.
  { intros args H.
    unfold processCreateContainerOptions_trace, processCreateContainerOptions_body in H.
    destruct (statements_to_image o run detach (initial_args run)) as [[e|[]] s1] eqn:Hs.
    - erewrite bind_throws in H by done. simplify_eq.
      apply statements_to_image_throws in Hs. by apply commands_error_not_to_image in Hs.
    - by apply statements_to_image_returns_inv in Hs. }
  split; [apply Hthrows|]. split; [|split; [|split]].
  - split.
    + unfold processCreateContainerOptions.
      destruct (processCreateContainerOptions_trace o run detach) as [[e|[]] args] eqn:H;
        intros [= ->]. by eapply Hlast.
    + intros [Himage Hfields]. unfold processCreateContainerOptions.
      rewrite body_reaches_commands by done. by rewrite commands_block_rejects.
  - intros args H. destruct (Hlast _ H) as [Himage Hfields].
    rewrite body_reaches_commands, commands_block_rejects in H by done.
    simplify_eq. split; [done|].
    unfold Spec.tokens_to_image. rewrite !app_assoc. apply last_snoc.
  - intros options w r d p <-. unfold Docker.CreateContainer.
    destruct (Hthrows (default false r) (default true d)) as [e He].
    exists e. run_step ltac:(reflexivity). by rewrite He.
  - intros options w p <-. unfold Docker.RunInContainer.
    destruct (Hthrows true false) as [e He].
    run_step ltac:(reflexivity).
    run_step ltac:(unfold lift; by rewrite (field_provided_Get _ _ _ Hprovided)).
    rewrite Hprovided. simpl. run_step ltac:(reflexivity).
    run_step ltac:(unfold lift; by rewrite (field_provided_Get _ _ _ Hprovided)).
    destruct (JS.truthy (JS.field (read w options) "rm")); simpl.
    + run_step ltac:(reflexivity). rewrite He. by eexists.
    + by eexists.
Qed.

Lemma commands_not_a_list_witness :
  let o := obj [("image", JStr "wordpress"); ("rm", JBool true);
                ("commands", JStr "ls -l")] in
  processCreateContainerOptions o true false = inl (Thrown TypeErrorClass Msg.commands)
  ∧ processCreateContainerOptions_trace o true false
    = (inl (Thrown TypeErrorClass Msg.commands),
       [JStr "container"; JStr "run"; JStr "--rm"; JStr "wordpress"]).
Proof.
  intros o.
  assert (Spec.provided (JS.field o "commands") = true) as H1 by (by vm_compute).
  assert (JS.isArray (JS.field o "commands") = false) as H2 by (by vm_compute).
  destruct (commands_not_a_list o true false H1 H2) as (_ & Hiff & _).
  split; [apply Hiff; by vm_compute | by vm_compute].
Defined.

Lemma falsy_commands_not_checked :
  (match falsy_commands_config with
   | JObj props => props !! "commands"
   | _ => None
   end) = Some (JStr "")
  ∧ JS.isArray (JS.field falsy_commands_config "commands") = false
  ∧ processCreateContainerOptions falsy_commands_config false true
    = inr [JStr "container"; JStr "create"; JStr "wordpress"]
  ∧ spawned (Docker.CreateContainer (Local falsy_commands_config) None None
               (Exited 0 ("abc123" +:+ nl) "") empty_world).2
    = [("docker", [JStr "container"; JStr "create"; JStr "wordpress"])].
Proof. by vm_compute. Qed.

(** ** Creating without running *)

Lemma occurs_append c s1 s2 : occurs c (s1 +:+ String c s2) = true.
Proof.
  induction s1 as [|c' s1 IH]; simpl.
  - by rewrite bool_decide_eq_true_2.
  - rewrite IH. apply orb_true_r.
Qed.

Lemma template2_not_detach a b c :
  occurs c "--detach" = false →
  template2 a (String c EmptyString) b ≠ JStr "--detach".
Proof.
  intros Hc [= H].
  pose proof (occurs_append c (JS.ToString a) (JS.ToString b)) as Hocc.
  change (String c (JS.ToString b)) with (String c EmptyString +:+ JS.ToString b) in Hocc.
  rewrite H in Hocc. congruence.
Qed.

Lemma flag_pair_elem x flag v :
  x ∈ Spec.flag_pair flag v → x = JStr flag ∨ x = v.
Proof.
  unfold Spec.flag_pair. destruct (Spec.provided v).
  - rewrite !elem_of_cons, elem_of_nil. tauto.
  - by rewrite elem_of_nil.
Qed.

Lemma pair_tokens_elem x flag left c right v :
  x ∈ Spec.pair_tokens flag left (String c EmptyString) right v →
  x = JStr flag ∨ ∃ a b, x = template2 a (String c EmptyString) b.
Proof.
  unfold Spec.pair_tokens. rewrite list_elem_of_In, in_flat_map.
  intros (item & _ & [<-|[<-|[]]]); eauto.
Qed.

Lemma tokens_without_detach o detach :
  JStr "--detach" ∉ Spec.supplied_values o →
  JStr "--detach" ∉ Spec.tokens o false detach.
Proof.
  unfold Spec.supplied_values, Spec.tokens, Spec.tokens_to_image, Spec.health_tokens.
  intros Hsupplied Hin.
  rewrite elem_of_app, !elem_of_cons, elem_of_nil in Hsupplied.
  rewrite elem_of_app in Hin. destruct Hin as [Hin|Hin]; [|tauto].
  repeat (rewrite elem_of_app in Hin; destruct Hin as [Hin|Hin]).
  - simpl in Hin. rewrite !elem_of_cons, elem_of_nil in Hin.
    by destruct Hin as [?|[?|[]]].
  - apply flag_pair_elem in Hin as [?|?]; [done|tauto].
  - apply flag_pair_elem in Hin as [?|?]; [done|tauto].
  - destruct (Spec.provided (JS.field o "health")); [|by apply elem_of_nil in Hin].
    simpl in Hin. rewrite !elem_of_cons in Hin. destruct Hin as [?|[?|Hin]]; [done|tauto|].
    repeat (rewrite elem_of_app in Hin; destruct Hin as [Hin|Hin]);
      (apply flag_pair_elem in Hin as [?|?]; [done|tauto]).
  - destruct (Spec.provided (JS.field o "rm")).
    + by apply list_elem_of_singleton in Hin.
    + by apply elem_of_nil in Hin.
  - apply pair_tokens_elem in Hin as [?|(a & b & Hin)]; [done|].
    symmetry in Hin. by apply template2_not_detach in Hin.
  - apply pair_tokens_elem in Hin as [?|(a & b & Hin)]; [done|].
    symmetry in Hin. by apply template2_not_detach in Hin.
  - apply pair_tokens_elem in Hin as [?|(a & b & Hin)]; [done|].
    symmetry in Hin. by apply template2_not_detach in Hin.
  - apply list_elem_of_singleton in Hin. tauto.
Qed.

(** C2 (as amended).  For a well-shaped configuration with an image and
    [run = false] the sequence starts with ["container"; "create"] and ends
    with the image token followed by the command tokens, so with the image
    token itself when no commands are given; it holds no ["--detach"] token
    unless one of the values the caller supplies (name, network, a health
    field, the image or a command) is that text. *)
Theorem create_token_sequence (o : jsval) (detach : bool) :
  Spec.ContainerConfig o = true →
  Spec.provided (JS.field o "image") = true →
  ∃ args middle,
    processCreateContainerOptions o false detach = inr args
    ∧ args = [JStr "container"; JStr "create"] ++ middle
             ++ [JS.field o "image"] ++ Spec.entries (JS.field o "commands")
    ∧ (Spec.entries (JS.field o "commands") = [] → last args = Some (JS.field o "image"))
    ∧ (JStr "--detach" ∉ Spec.supplied_values o → JStr "--detach" ∉ args).
Proof.
  intros Hconfig Himage.
  exists (Spec.tokens o false detach),
    (Spec.flag_pair "--name" (JS.field o "name")
     ++ Spec.flag_pair "--net" (JS.field o "network")
     ++ Spec.health_tokens (JS.field o "health")
     ++ (if Spec.provided (JS.field o "rm") then [JStr "--rm"] else [])
     ++ Spec.pair_tokens "-v" "host" ":" "docker" (JS.field o "volumes")
     ++ Spec.pair_tokens "-e" "name" "=" "value" (JS.field o "environmentVariables")
     ++ Spec.pair_tokens "-p" "host" ":" "docker" (JS.field o "exposePorts")).
  split; [by apply builder_returns_tokens|].
  split; [|split].
  - unfold Spec.tokens, Spec.tokens_to_image, Spec.base_tokens.
    by rewrite <- !app_assoc.
  - intros Hnone. unfold Spec.tokens, Spec.tokens_to_image.
    rewrite Hnone, app_nil_r, !app_assoc. apply last_snoc.
  - apply tokens_without_detach.
Qed.

(** ** The methods of [Docker] *)

Lemma alter_present {A} (f : A → A) (m : gmap loc A) l x :
  m !! l = Some x → alter f l m = <[l := f x]> m.
Proof.
  intros Hl. apply map_eq. intros i. destruct (decide (i = l)) as [->|Hne].
  - by rewrite lookup_alter_eq, lookup_insert_eq, Hl.
  - by rewrite lookup_alter_ne, lookup_insert_ne.
Qed.

Lemma read_object_Shared w l props :
  read w (Shared l) = JObj props → store w !! l = Some props.
Proof. simpl. destruct (store w !! l); simpl; intros H; by simplify_eq. Qed.

Lemma assign_object o k x w props :
  read w o = JObj props →
  assign o k x w = (updated o (<[k := x]> props), write_back o (<[k := x]> props) w).
Proof.
  destruct o as [l|v]; intros H.
  - apply read_object_Shared in H. simpl. by erewrite alter_present.
  - simpl in *. by subst.
Qed.

Lemma read_updated o props w : read (write_back o props w) (updated o props) = JObj props.
Proof. destruct o as [l|v]; simpl; [|done]. by rewrite lookup_insert_eq. Qed.

Lemma write_back_twice o props1 props2 w :
  write_back (updated o props1) props2 (write_back o props1 w) = write_back o props2 w.
Proof. destruct o as [l|v]; simpl; [|done]. by rewrite insert_insert_eq. Qed.

Lemma updated_twice o props1 props2 :
  updated (updated o props1) props2 = updated o props2.
Proof. by destruct o. Qed.

Lemma read_spawned_one command args w o : read (spawned_one command args w) o = read w o.
Proof. by destruct o. Qed.

Lemma CreateContainer_callback_object o run stdout w props :
  read w o = JObj props →
  let final := <["status" := JStr (derived_status (JObj props) run)]>
                 (<["id" := JStr (JS.replace stdout nl "")]> props) in
  Docker.CreateContainer_callback o run stdout w
  = (new_Container (JObj final), write_back o final w).
Proof.
  intros Hread final. unfold Docker.CreateContainer_callback.
  rewrite (assign_object _ _ _ _ _ Hread).
  rewrite (assign_object _ _ _ _ _ (read_updated _ _ _)).
  rewrite write_back_twice, updated_twice, read_updated.
  assert (JS.field (JObj (<["status" := JStr (if run then "started" else "created")]>
                             (<["id" := JStr (JS.replace stdout nl "")]> props))) "rm"
          = JS.field (JObj props) "rm") as ->.
  { simpl. by rewrite !lookup_insert_ne. }
  unfold final, derived_status.
  destruct (JS.truthy (JS.field (JObj props) "rm")).
  - rewrite (assign_object _ _ _ _ _ (read_updated _ _ _)).
    by rewrite write_back_twice, updated_twice, read_updated, insert_insert_eq.
  - by rewrite read_updated.
Qed.

Lemma builder_returns_object o run detach args :
  processCreateContainerOptions o run detach = inr args → ∃ props, o = JObj props.
Proof.
  intros H. assert (JS.truthy (JS.field o "image") = true) as Himage.
  { by apply (builder_returns_iff o run detach); eauto. }
  destruct o; try done. eauto.
Qed.

Lemma CreateContainer_resolves options run detach stdout stderr w args props :
  read w options = JObj props →
  processCreateContainerOptions (JObj props) (default false run) (default true detach)
  = inr args →
  let final := <["status" := JStr (derived_status (JObj props) (default false run))]>
                 (<["id" := JStr (JS.replace stdout nl "")]> props) in
  Docker.CreateContainer options run detach (Exited 0 stdout stderr) w
  = (inr (Resolved (new_Container (JObj final))),
     write_back options final (spawned_one "docker" args w)).
Proof.
  intros Hread Hargs final. unfold Docker.CreateContainer.
  run_step ltac:(reflexivity). rewrite Hread, Hargs.
  run_step ltac:(reflexivity). run_step ltac:(reflexivity).
  unfold ReturnPromise.
  erewrite CreateContainer_callback_object; [done|].
  by rewrite <- Hread.
Qed.

Lemma falsy_field v k : JS.truthy v = false → JS.field v k = JUndefined.
Proof. by destruct v. Qed.

Lemma ProcessCreateNetworkOption_result o :
  ProcessCreateNetworkOption o
  = if JS.truthy (JS.field o "name")
    then inr [JStr "network"; JStr "create"; JS.field o "name"]
    else inl (Thrown ErrorClass Msg.network_name).
Proof.
  unfold ProcessCreateNetworkOption.
  destruct (JS.truthy o) eqn:Ho; simpl.
  - erewrite bind_returns.
    2: { erewrite bind_returns by (unfold lift; by rewrite (truthy_Get _ _ Ho)).
         reflexivity. }
    destruct (JS.truthy (JS.field o "name")); simpl; [|done].
    run_step ltac:(reflexivity).
    by run_step ltac:(unfold lift; by rewrite (truthy_Get _ _ Ho)).
  - by rewrite (falsy_field _ _ Ho).
Qed.

Lemma CreateNetwork_resolves options stdout stderr w props :
  read w (Docker.normalize w options) = JObj props →
  JS.truthy (JS.field (JObj props) "name") = true →
  let final := <["status" := JStr "alive"]>
                 (<["id" := JStr (JS.replace stdout nl "")]> props) in
  Docker.CreateNetwork options (Exited 0 stdout stderr) w
  = (inr (Resolved (new_Network (JObj final))),
     write_back (Docker.normalize w options) final
       (spawned_one "docker"
          [JStr "network"; JStr "create"; JS.field (JObj props) "name"] w)).
Proof.
  intros Hread Hname final. unfold Docker.CreateNetwork.
  run_step ltac:(reflexivity). run_step ltac:(reflexivity).
  rewrite Hread, ProcessCreateNetworkOption_result, Hname.
  run_step ltac:(reflexivity). run_step ltac:(reflexivity).
  unfold ReturnPromise.
  erewrite assign_object by (by rewrite <- Hread).
  rewrite (assign_object _ _ _ _ _ (read_updated _ _ _)).
  by rewrite write_back_twice, updated_twice, read_updated.
Qed.

Lemma CreateVolume_resolves name stdout stderr w :
  Docker.CreateVolume name (Exited 0 stdout stderr) w
  = (inr (Resolved {| volume_name := JStr (JS.replace stdout nl "");
                      volume_status := JStr "alive" |}),
     spawned_one "docker" [JStr "volume"; JStr "create"; name] w).
Proof. reflexivity. Qed.

Lemma replace_cons c r pattern replacement :
  JS.replace (String c r) pattern replacement
  = if String.prefix pattern (String c r)
    then replacement +:+ substring (String.length pattern)
                           (String.length (String c r) - String.length pattern)
                           (String c r)
    else String c (JS.replace r pattern replacement).
Proof. reflexivity. Qed.

Lemma prefix_nl_other c r : "010"%char ≠ c → String.prefix nl (String c r) = false.
Proof.
  intros Hc.
  change (String.prefix nl (String c r))
    with (if ascii_dec "010" c then String.prefix EmptyString r else false).
  by destruct (ascii_dec "010" c).
Qed.

(** Removing the first line feed from one line of text. *)
Lemma replace_line line :
  occurs "010" line = false →
  JS.replace (line +:+ nl) nl "" = line ∧ JS.replace line nl "" = line.
Proof.
  induction line as [|c line IH]; intros Hline; [done|].
  simpl in Hline. apply orb_false_elim in Hline as [Hc Hline].
  apply bool_decide_eq_false in Hc. destruct (IH Hline) as [IH1 IH2].
  change (String c line +:+ nl) with (String c (line +:+ nl)).
  rewrite !replace_cons, !prefix_nl_other by done.
  by rewrite IH1, IH2.
Qed.

Lemma no_space_tail c s : no_space (String c s) → Spec.is_space c = false ∧ no_space s.
Proof.
  intros H. split.
  - apply H. simpl. by rewrite bool_decide_eq_true_2.
  - intros c' Hc'. apply H. simpl. rewrite Hc'. apply orb_true_r.
Qed.

Lemma trim_end_line line : no_space line → Spec.trim_end (line +:+ nl) = line.
Proof.
  induction line as [|c line IH]; intros Hline; [done|].
  apply no_space_tail in Hline as [Hc Hline].
  simpl. rewrite (IH Hline), Hc. by destruct line.
Qed.

Lemma trim_line line : no_space line → Spec.trim (line +:+ nl) = line.
Proof.
  intros Hline. unfold Spec.trim. destruct line as [|c line]; [done|].
  pose proof (no_space_tail _ _ Hline) as [Hc _].
  simpl Spec.trim_start. rewrite Hc. by apply (trim_end_line (String c line)).
Qed.

Lemma no_space_line line : no_space line → occurs "010" line = false.
Proof.
  intros H. destruct (occurs "010" line) eqn:Hocc; [|done].
  by apply H in Hocc.
Qed.

(** C5.  A successful [CreateContainer] returns a Container whose status is
    ["removed"] when remove-on-exit is requested, whatever the run flag, else
    ["started"] when [run] is set, else ["created"]. *)
Theorem CreateContainer_status (options : operand) (run detach : option bool)
    (stdout stderr : string) (w : world) (args : list jsval) :
  processCreateContainerOptions (read w options) (default false run) (default true detach)
  = inr args →
  ∃ c w',
    Docker.CreateContainer options run detach (Exited 0 stdout stderr) w
    = (inr (Resolved c), w')
    ∧ container_status c
      = JStr (if Spec.provided (JS.field (read w options) "rm") then "removed"
              else if default false run then "started" else "created").
Proof.
  intros Hargs. destruct (builder_returns_object _ _ _ _ Hargs) as [props Hread].
  rewrite Hread in Hargs |- *. eexists _, _. split.
  - by apply CreateContainer_resolves.
  - unfold new_Container, container_status. simpl. by rewrite lookup_insert_eq.
Qed.

Lemma CreateContainer_status_witness :
  ∃ c w',
    Docker.CreateContainer (Local sample_config) (Some true) None
      (Exited 0 ("abc123" +:+ nl) "") empty_world
    = (inr (Resolved c), w')
    ∧ container_status c = JStr "removed".
Proof.
  apply (CreateContainer_status (Local sample_config) (Some true) None
           ("abc123" +:+ nl) "" empty_world (Spec.tokens sample_config true true)).
  by vm_compute.
Defined.

(** C4 (as amended).  The id of the Container or Network, and the name of
    the Volume, a successful creating operation returns is the accumulated
    stdout with its first line feed removed, whatever the configuration
    holds.  For a stdout of one line, with or without a line feed after it,
    this is the line; it is the trimmed stdout when the line holds no
    whitespace. *)
Theorem created_identifier_from_stdout (options network_options : operand)
    (name : jsval) (run detach : option bool) (stdout stderr : string)
    (w : world) (args : list jsval) (props : gmap string jsval) :
  processCreateContainerOptions (read w options) (default false run) (default true detach)
  = inr args →
  read w (Docker.normalize w network_options) = JObj props →
  Spec.provided (JS.field (JObj props) "name") = true →
  (∃ c w',
     Docker.CreateContainer options run detach (Exited 0 stdout stderr) w
     = (inr (Resolved c), w')
     ∧ container_id c = JStr (JS.replace stdout nl ""))
  ∧ (∃ v w',
       Docker.CreateVolume name (Exited 0 stdout stderr) w = (inr (Resolved v), w')
       ∧ volume_name v = JStr (JS.replace stdout nl ""))
  ∧ (∃ n w',
       Docker.CreateNetwork network_options (Exited 0 stdout stderr) w
       = (inr (Resolved n), w')
       ∧ network_id n = JStr (JS.replace stdout nl ""))
  ∧ (∀ line,
       occurs "010" line = false →
       JS.replace (line +:+ nl) nl "" = line ∧ JS.replace line nl "" = line)
  ∧ (∀ line, no_space line → JS.replace (line +:+ nl) nl "" = Spec.trim (line +:+ nl)).
Proof.
  intros Hargs Hnetwork Hname.
  destruct (builder_returns_object _ _ _ _ Hargs) as [cprops Hread].
  rewrite Hread in Hargs. repeat split.
  - eexists _, _. split; [by apply CreateContainer_resolves|].
    unfold new_Container, container_id. simpl.
    by rewrite lookup_insert_ne, lookup_insert_eq.
  - eexists _, _. split; [apply CreateVolume_resolves|done].
  - eexists _, _. split; [by apply CreateNetwork_resolves|].
    unfold new_Network, network_id. simpl.
    by rewrite lookup_insert_ne, lookup_insert_eq.
  - by apply replace_line.
  - by apply replace_line.
  - intros line Hline. rewrite trim_line by done.
    by apply replace_line, no_space_line.
Qed.

Lemma created_identifier_from_stdout_witness :
  ∃ c w',
    Docker.CreateContainer (Local sample_config) None None
      (Exited 0 ("abc123" +:+ nl) "") empty_world
    = (inr (Resolved c), w')
    ∧ container_id c = JStr (JS.replace ("abc123" +:+ nl) nl "").
Proof.
  refine (proj1 (created_identifier_from_stdout
            (Local sample_config) (Local (JStr "net1")) (JStr "my-vol") None None
            ("abc123" +:+ nl) "" empty_world (Spec.tokens sample_config false true)
            {[ "name" := JStr "net1" ]} _ _ _)); by vm_compute.
Defined.

Lemma container_id_not_trimmed :
  container_id <$> resolved (Docker.CreateContainer (Local sample_config) None None
                               (Exited 0 (" abc123" +:+ nl) "") empty_world)
  = Some (JStr " abc123")
  ∧ Spec.trim (" abc123" +:+ nl) = "abc123"
  ∧ JStr " abc123" ≠ JStr (Spec.trim (" abc123" +:+ nl)).
Proof. by vm_compute. Qed.

(** C6 (as amended).  [CreateNetwork] turns a string argument [s] into the
    object [{name: s}] and leaves any other argument as it is; the network
    builder returns ["network"; "create"; name] and throws its [Error] when
    no name is provided; on success, for a string and for an options object
    alike, [docker] is spawned with that sequence and the Network has the
    supplied name, status ["alive"] and as id the stdout with its first line
    feed removed, which for a stdout of one line is that line. *)
Theorem CreateNetwork_from_name (options : operand) (props : gmap string jsval)
    (stdout stderr : string) (w : world) :
  read w (Docker.normalize w options) = JObj props →
  Spec.provided (JS.field (JObj props) "name") = true →
  (∀ s, read w options = JStr s →
        Docker.normalize w options = Local (JObj {[ "name" := JStr s ]}))
  ∧ (JS.isString (read w options) = false → Docker.normalize w options = options)
  ∧ ProcessCreateNetworkOption (JObj props)
    = inr [JStr "network"; JStr "create"; JS.field (JObj props) "name"]
  ∧ (∀ o, Spec.provided (JS.field o "name") = false →
          ProcessCreateNetworkOption o = inl (Thrown ErrorClass Msg.network_name))
  ∧ Docker.CreateNetwork options (Exited 0 stdout stderr) w
    = (inr (Resolved {| network_name := JS.field (JObj props) "name";
                        network_id := JStr (JS.replace stdout nl "");
                        network_status := JStr "alive" |}),
       write_back (Docker.normalize w options)
         (<["status" := JStr "alive"]>
            (<["id" := JStr (JS.replace stdout nl "")]> props))
         (spawned_one "docker"
            [JStr "network"; JStr "create"; JS.field (JObj props) "name"] w))
  ∧ (∀ line, occurs "010" line = false → JS.replace (line +:+ nl) nl "" = line).
Proof.
  intros Hread Hname. unfold Spec.provided in Hname.
  split; [|split; [|split; [|split; [|split]]]].
  - intros s Hs. unfold Docker.normalize. by rewrite Hs.
  - intros Hstring. unfold Docker.normalize. by destruct (read w options).
  - by rewrite ProcessCreateNetworkOption_result, Hname.
  - intros o Ho. unfold Spec.provided in Ho.
    by rewrite ProcessCreateNetworkOption_result, Ho.
  - erewrite CreateNetwork_resolves by done.
    unfold new_Network. simpl. by simplify_map_eq.
  - intros line Hline. by apply replace_line.
Qed.

Lemma CreateNetwork_from_name_witness :
  (Docker.CreateNetwork (Local (JStr "net1")) (Exited 0 ("abc123" +:+ nl) "") empty_world
   = (inr (Resolved {| network_name := JStr "net1";
                       network_id := JStr "abc123";
                       network_status := JStr "alive" |}),
      World ∅ [("docker", [JStr "network"; JStr "create"; JStr "net1"])]))
  ∧ (Docker.CreateNetwork (Shared 1%positive) (Exited 0 ("abc123" +:+ nl) "")
       network_world
     = (inr (Resolved {| network_name := JStr "net1";
                         network_id := JStr "abc123";
                         network_status := JStr "alive" |}),
        World {[ 1%positive := <["status" := JStr "alive"]>
                                 (<["id" := JStr "abc123"]> {[ "name" := JStr "net1" ]}) ]}
              [("docker", [JStr "network"; JStr "create"; JStr "net1"])])).
Proof.
  split.
  - assert (read empty_world (Docker.normalize empty_world (Local (JStr "net1")))
            = JObj {[ "name" := JStr "net1" ]}) as H1 by reflexivity.
    assert (Spec.provided (JS.field (JObj {[ "name" := JStr "net1" ]}) "name") = true)
      as H2 by reflexivity.
    exact (proj1 (proj2 (proj2 (proj2 (proj2
             (CreateNetwork_from_name (Local (JStr "net1")) {[ "name" := JStr "net1" ]}
                ("abc123" +:+ nl) "" empty_world H1 H2)))))).
  - assert (read network_world (Docker.normalize network_world (Shared 1%positive))
            = JObj {[ "name" := JStr "net1" ]}) as H1 by reflexivity.
    assert (Spec.provided (JS.field (JObj {[ "name" := JStr "net1" ]}) "name") = true)
      as H2 by reflexivity.
    etrans.
    + exact (proj1 (proj2 (proj2 (proj2 (proj2
               (CreateNetwork_from_name (Shared 1%positive) {[ "name" := JStr "net1" ]}
                  ("abc123" +:+ nl) "" network_world H1 H2)))))).
    + by vm_compute.
Defined.

Lemma network_id_not_trimmed :
  network_id <$> resolved (Docker.CreateNetwork (Local (JStr "net1"))
                             (Exited 0 (" abc123" +:+ nl) "") empty_world)
  = Some (JStr " abc123")
  ∧ Spec.trim (" abc123" +:+ nl) = "abc123"
  ∧ JStr " abc123" ≠ JStr (Spec.trim (" abc123" +:+ nl)).
Proof. by vm_compute. Qed.

(** C8 (as amended).  A successful [CreateContainer] or [CreateNetwork] that
    is given an options object of the caller's writes the id and the status
    into that object, in place, and returns an entity with the same id and
    status; every other property of the object and every other object stay as
    they were.  A [CreateNetwork] that is given a string writes to no object
    of the caller's. *)
Theorem creating_writes_id_and_status (l : loc) (props : gmap string jsval)
    (stdout stderr : string) (w : world) :
  store w !! l = Some props →
  (∀ run detach args,
     processCreateContainerOptions (JObj props) (default false run) (default true detach)
     = inr args →
     ∃ c w',
       Docker.CreateContainer (Shared l) run detach (Exited 0 stdout stderr) w
       = (inr (Resolved c), w')
       ∧ container_id c = JStr (JS.replace stdout nl "")
       ∧ store w' = <[l := <["status" := container_status c]>
                             (<["id" := container_id c]> props)]> (store w))
  ∧ (Spec.provided (JS.field (JObj props) "name") = true →
     ∃ n w',
       Docker.CreateNetwork (Shared l) (Exited 0 stdout stderr) w
       = (inr (Resolved n), w')
       ∧ network_id n = JStr (JS.replace stdout nl "")
       ∧ network_status n = JStr "alive"
       ∧ store w' = <[l := <["status" := network_status n]>
                             (<["id" := network_id n]> props)]> (store w))
  ∧ (∀ s, s ≠ "" →
     ∃ n w',
       Docker.CreateNetwork (Local (JStr s)) (Exited 0 stdout stderr) w
       = (inr (Resolved n), w')
       ∧ store w' = store w).
Proof.
  intros Hl.
  assert (read w (Shared l) = JObj props) as Hread by (simpl; by rewrite Hl).
  split; [|split].
  - intros run detach args Hargs.
    eexists _, _. split; [by apply CreateContainer_resolves|].
    unfold new_Container, container_status, container_id. simpl.
    by rewrite lookup_insert_eq, lookup_insert_ne, lookup_insert_eq.
  - intros Hname.
    assert (read w (Docker.normalize w (Shared l)) = JObj props) as Hnormal.
    { unfold Docker.normalize. by rewrite Hread. }
    eexists _, _. split; [by apply CreateNetwork_resolves|].
    unfold Docker.normalize. rewrite Hread.
    unfold new_Network, network_status, network_id. simpl.
    by rewrite lookup_insert_eq, lookup_insert_ne, lookup_insert_eq.
  - intros s Hs. eexists _, _. split.
    + apply (CreateNetwork_resolves _ _ _ _ {[ "name" := JStr s ]}); [done|].
      simpl. rewrite lookup_singleton_eq. by destruct s.
    + reflexivity.
Qed.

Lemma creating_writes_id_and_status_witness :
  (∃ c w',
     Docker.CreateContainer (Shared 1%positive) None None
       (Exited 0 ("abc123" +:+ nl) "") caller_world
     = (inr (Resolved c), w')
     ∧ container_id c = JStr (JS.replace ("abc123" +:+ nl) nl "")
     ∧ store w' = <[1%positive := <["status" := container_status c]>
                      (<["id" := container_id c]> {[ "image" := JStr "wordpress" ]})]>
                    (store caller_world))
  ∧ (∃ n w',
       Docker.CreateNetwork (Shared 1%positive) (Exited 0 ("abc123" +:+ nl) "")
         network_world
       = (inr (Resolved n), w')
       ∧ network_id n = JStr (JS.replace ("abc123" +:+ nl) nl "")
       ∧ network_status n = JStr "alive"
       ∧ store w' = <[1%positive := <["status" := network_status n]>
                        (<["id" := network_id n]> {[ "name" := JStr "net1" ]})]>
                      (store network_world)).
Proof.
  split.
  - apply (proj1 (creating_writes_id_and_status 1%positive
                    {[ "image" := JStr "wordpress" ]} ("abc123" +:+ nl) ""
                    caller_world eq_refl) None None
                 [JStr "container"; JStr "create"; JStr "wordpress"]).
    reflexivity.
  - apply (proj1 (proj2 (creating_writes_id_and_status 1%positive
                           {[ "name" := JStr "net1" ]} ("abc123" +:+ nl) ""
                           network_world eq_refl))).
    reflexivity.
Defined.

Lemma caller_options_changed :
  store caller_world !! 1%positive = Some {[ "image" := JStr "wordpress" ]}
  ∧ store (Docker.CreateContainer (Shared 1%positive) None None
             (Exited 0 ("abc123" +:+ nl) "") caller_world).2 !! 1%positive
    = Some (<["id" := JStr "abc123"]>
              (<["status" := JStr "created"]> {[ "image" := JStr "wordpress" ]}))
  ∧ resolved (Docker.CreateContainer (Shared 1%positive) None None
                (Exited 0 ("abc123" +:+ nl) "") caller_world) ≠ None
  ∧ store (Docker.CreateContainer (Shared 1%positive) None None
             (Exited 0 ("abc123" +:+ nl) "") caller_world).2 !! 1%positive
    ≠ store caller_world !! 1%positive.
Proof.
  split; [by vm_compute|]. split; [by vm_compute|]. split; [by vm_compute|].
  intros H. apply (f_equal (λ o, (o ≫= (.!! "id")))) in H. by vm_compute in H.
Qed.

(** C3 (as amended).  [RunInContainer] requires [commands] to be provided,
    where an empty list counts as provided, and remove-on-exit to be set: on
    any options value whose [commands] or [rm] is not provided it throws a
    [TypeError] and no process is spawned. *)
Theorem RunInContainer_requires (options : operand) (p : outcome) (w : world) :
  read w options ≠ JUndefined →
  read w options ≠ JNull →
  Spec.provided (JS.field (read w options) "commands") = false
  ∨ Spec.provided (JS.field (read w options) "rm") = false →
  Docker.RunInContainer options p w
  = (inl (Thrown TypeErrorClass
            (if Spec.provided (JS.field (read w options) "commands")
             then Msg.run_rm else Msg.run_commands)), w).
Proof.
  intros Hundefined Hnull Hmissing. unfold Docker.RunInContainer, Spec.provided in *.
  assert (∀ k, JS.Get (read w options) k = inr (JS.field (read w options) k)) as HGet.
  { intros k. by destruct (read w options). }
  run_step ltac:(reflexivity).
  run_step ltac:(unfold lift; by rewrite HGet).
  destruct (JS.truthy (JS.field (read w options) "commands")); simpl; [|done].
  run_step ltac:(reflexivity).
  run_step ltac:(unfold lift; by rewrite HGet).
  destruct Hmissing as [?|Hrm]; [done|]. by rewrite Hrm.
Qed.

Lemma RunInContainer_requires_witness :
  Docker.RunInContainer (Local no_rm_config) (Exited 0 "" "") empty_world
  = (inl (Thrown TypeErrorClass Msg.run_rm), empty_world).
Proof.
  apply (RunInContainer_requires (Local no_rm_config) (Exited 0 "" "") empty_world);
    [done | done | right; by vm_compute].
Defined.

Lemma RunInContainer_empty_commands :
  JS.field empty_commands_config "commands" = JArr []
  ∧ Docker.RunInContainer (Local empty_commands_config) (Exited 0 "out" "") empty_world
    = (inr (Resolved {| output_stdout := "out"; output_stderr := "" |}),
       World ∅ [("docker", [JStr "container"; JStr "run"; JStr "--rm"; JStr "wordpress"])]).
Proof. by vm_compute. Qed.

(** ** Presence is truthiness *)

Lemma statements_reach_lists o run detach :
  JS.truthy (JS.field o "image") = true →
  Spec.optional Spec.health (JS.field o "health") = true →
  statements_to_image o run detach (initial_args run)
  = (volumes_block o >> env_block o >> ports_block o >>
     let! image := lift (JS.Get o "image") in push [image])
      (tokens_to_rm o run detach).
Proof.
  intros Himage Hhealth.
  assert (JS.truthy o = true) as Ho by (by destruct o).
  unfold statements_to_image.
  run_step ltac:(apply base_tokens_built).
  rewrite Ho. simpl.
  run_step ltac:(erewrite bind_returns;
                 [| unfold lift; by rewrite (truthy_Get _ _ Ho)]; by rewrite Himage).
  simpl. run_step ltac:(reflexivity).
  run_step ltac:(unfold lift; by rewrite (truthy_Get _ _ Ho)).
  run_step ltac:(apply push_option_tokens).
  run_step ltac:(unfold lift; by rewrite (truthy_Get _ _ Ho)).
  run_step ltac:(apply push_option_tokens).
  run_step ltac:(by apply health_block_tokens).
  run_step ltac:(unfold lift; by rewrite (truthy_Get _ _ Ho)).
  erewrite bind_returns
    with (s' := _ ++ (if Spec.provided (JS.field o "rm") then [JStr "--rm"] else [])).
  2: { unfold Spec.provided, when. destruct (JS.truthy (JS.field o "rm")); [done|].
       unfold ret. by rewrite app_nil_r. }
  unfold tokens_to_rm. by rewrite <- !app_assoc.
Qed.

Lemma pair_item_rejects flag first second left sep right message iprops args :
  JS.truthy (JS.field (JObj iprops) first) = false
  ∨ JS.truthy (JS.field (JObj iprops) second) = false →
  pair_item flag first second left sep right message (JObj iprops) args
  = (inl (Thrown ErrorClass message), args).
Proof.
  intros H. unfold pair_item, bind, lift, ret, throw, push. simpl in *.
  destruct (JS.truthy (default JUndefined (iprops !! first))); simpl; [|done].
  destruct H as [|H]; [done|]. by rewrite H.
Qed.

Lemma forEach_pair_rejects flag first second left sep right message before iprops after :
  forallb (λ item, JS.truthy (JS.field item first) && JS.truthy (JS.field item second))
          before = true →
  JS.truthy (JS.field (JObj iprops) first) = false
  ∨ JS.truthy (JS.field (JObj iprops) second) = false →
  ∀ args, ∃ args',
    forEach (before ++ JObj iprops :: after)
            (pair_item flag first second left sep right message) args
    = (inl (Thrown ErrorClass message), args').
Proof.
  intros Hbefore Hitem. induction before as [|item before IH]; intros args; simpl.
  - eexists. erewrite bind_throws; [done|]. by apply pair_item_rejects.
  - simpl in Hbefore. apply andb_prop in Hbefore as [Hok Hbefore].
    apply andb_prop in Hok as [H1 H2].
    erewrite bind_returns by (by apply pair_item_tokens).
    by apply IH.
Qed.

Lemma list_block_rejects flag first second left sep right not_array message
    before iprops after args :
  forallb (λ item, JS.truthy (JS.field item first) && JS.truthy (JS.field item second))
          before = true →
  JS.truthy (JS.field (JObj iprops) first) = false
  ∨ JS.truthy (JS.field (JObj iprops) second) = false →
  ∃ args',
    list_block (JArr (before ++ JObj iprops :: after)) not_array
               (pair_item flag first second left sep right message) args
    = (inl (Thrown ErrorClass message), args').
Proof. intros Hbefore Hitem. simpl. by apply forEach_pair_rejects. Qed.

Lemma builder_throws_in_statements o run detach e args :
  statements_to_image o run detach (initial_args run) = (inl e, args) →
  processCreateContainerOptions o run detach = inl e.
Proof.
  intros H.
  unfold processCreateContainerOptions, processCreateContainerOptions_trace,
    processCreateContainerOptions_body.
  by erewrite bind_throws.
Qed.

Lemma falsy_pair_field k1 k2 k iprops v :
  k = k1 ∨ k = k2 →
  iprops !! k = Some v →
  JS.truthy v = false →
  JS.truthy (JS.field (JObj iprops) k1) = false
  ∨ JS.truthy (JS.field (JObj iprops) k2) = false.
Proof. intros [->| ->] Hk Hv; [left|right]; simpl; by rewrite Hk. Qed.

Lemma or_swap (P Q : Prop) : P ∨ Q → Q ∨ P.
Proof. tauto. Qed.

Lemma entry_rejected b o run detach before iprops after k v :
  JS.truthy (JS.field o "image") = true →
  Spec.optional Spec.health (JS.field o "health") = true →
  earlier_lists b o = true →
  JS.field o (pair_list_field b) = JArr (before ++ JObj iprops :: after) →
  forallb (λ item, JS.truthy (JS.field item (pair_list_keys b).1)
                   && JS.truthy (JS.field item (pair_list_keys b).2)) before = true →
  k = (pair_list_keys b).1 ∨ k = (pair_list_keys b).2 →
  iprops !! k = Some v →
  JS.truthy v = false →
  processCreateContainerOptions o run detach
  = inl (Thrown ErrorClass (pair_list_message b)).
Proof.
  intros Himage Hhealth Hearlier Hlist Hbefore Hk Hv Hfalsy.
  pose proof (falsy_pair_field _ _ _ _ _ Hk Hv Hfalsy) as Hitem.
  assert (JS.truthy o = true) as Ho by (by destruct o).
  destruct b; simpl in *.
  - rewrite forallb_swap in Hbefore. apply or_swap in Hitem.
    edestruct (list_block_rejects "-v" "docker" "host" "host" ":" "docker"
                 Msg.volumes_array Msg.volumes_item before iprops after)
      as [args' Hthrows]; [done..|].
    eapply builder_throws_in_statements.
    rewrite statements_reach_lists by done.
    erewrite bind_throws; [done|]. unfold volumes_block.
    run_step ltac:(unfold lift; by rewrite (truthy_Get _ _ Ho)).
    rewrite Hlist. apply Hthrows.
  - edestruct (list_block_rejects "-e" "name" "value" "name" "=" "value"
                 Msg.env_array Msg.env_item before iprops after)
      as [args' Hthrows]; [done..|].
    eapply builder_throws_in_statements.
    rewrite statements_reach_lists by done.
    run_step ltac:(unfold volumes_block;
                   erewrite bind_returns;
                   [| unfold lift; by rewrite (truthy_Get _ _ Ho)];
                   apply list_block_tokens; by right).
    erewrite bind_throws; [done|]. unfold env_block.
    run_step ltac:(unfold lift; by rewrite (truthy_Get _ _ Ho)).
    rewrite Hlist. apply Hthrows.
  - apply andb_prop in Hearlier as [Hvolumes Henv].
    edestruct (list_block_rejects "-p" "host" "docker" "host" ":" "docker"
                 Msg.ports_array Msg.ports_item before iprops after)
      as [args' Hthrows]; [done..|].
    eapply builder_throws_in_statements.
    rewrite statements_reach_lists by done.
    run_step ltac:(unfold volumes_block;
                   erewrite bind_returns;
                   [| unfold lift; by rewrite (truthy_Get _ _ Ho)];
                   apply list_block_tokens; by right).
    run_step ltac:(unfold env_block;
                   erewrite bind_returns;
                   [| unfold lift; by rewrite (truthy_Get _ _ Ho)];
                   apply list_block_tokens; by left).
    erewrite bind_throws; [done|]. unfold ports_block.
    run_step ltac:(unfold lift; by rewrite (truthy_Get _ _ Ho)).
    rewrite Hlist. apply Hthrows.
Qed.

Lemma bind_ext {S A B} (m : Eff S A) (f g : A → Eff S B) s :
  (∀ a s', f a s' = g a s') → bind m f s = bind m g s.
Proof. intros H. unfold bind. destruct (m s) as [[e|a] s']; [done|apply H]. Qed.

Lemma Get_other_property props k k' x :
  k ≠ k' → JS.Get (JObj (<[k' := x]> props)) k = JS.Get (JObj props) k.
Proof. intros H. unfold JS.Get, JS.field. by rewrite lookup_insert_ne. Qed.

Lemma health_block_falsy_retries props hprops v args :
  props !! "health" = Some (JObj hprops) →
  hprops !! "retries" = Some v →
  JS.truthy v = false →
  health_block (JObj (<["health" := JObj (delete "retries" hprops)]> props)) args
  = health_block (JObj props) args.
Proof.
  intros Hhealth Hretries Hfalsy.
  unfold health_block, bind, lift, ret, throw, push_option, when, push, JS.Get, JS.field.
  rewrite lookup_insert_eq, Hhealth. simpl.
  rewrite lookup_delete_eq, !lookup_delete_ne, Hretries by done. simpl.
  by rewrite Hfalsy.
Qed.

Lemma statements_falsy_retries props hprops v run detach args :
  props !! "health" = Some (JObj hprops) →
  hprops !! "retries" = Some v →
  JS.truthy v = false →
  statements_to_image
    (JObj (<["health" := JObj (delete "retries" hprops)]> props)) run detach args
  = statements_to_image (JObj props) run detach args.
Proof.
  intros Hhealth Hretries Hfalsy.
  unfold statements_to_image, volumes_block, env_block, ports_block.
  rewrite !Get_other_property by done. simpl JS.truthy. simpl negb.
  do 7 (apply bind_ext; intros ? ?).
  unfold bind at 1 7. by erewrite health_block_falsy_retries.
Qed.

Lemma builder_falsy_retries props hprops v run detach :
  props !! "health" = Some (JObj hprops) →
  hprops !! "retries" = Some v →
  JS.truthy v = false →
  processCreateContainerOptions
    (JObj (<["health" := JObj (delete "retries" hprops)]> props)) run detach
  = processCreateContainerOptions (JObj props) run detach.
Proof.
  intros Hhealth Hretries Hfalsy.
  unfold processCreateContainerOptions, processCreateContainerOptions_trace,
    processCreateContainerOptions_body, bind.
  erewrite statements_falsy_retries by done.
  unfold commands_block. by rewrite !Get_other_property.
Qed.

(** C10.  The builder tests presence by truthiness.  A [health.retries] that
    is present but falsy, such as 0, is treated as absent although 0 is an
    integer: the builder behaves as on the same options without the property,
    so it raises no error for it and emits no retries pair.  An entry of
    [volumes], [environmentVariables] or [exposePorts] one of whose pair
    fields is present but falsy, such as 0 or the empty string, is rejected
    with the error for a missing pair field. *)
Theorem presence_is_truthiness :
  (JS.truthy (JNum (NInt 0)) = false ∧ JS.truthy (JStr "") = false
   ∧ JS.isInteger (JNum (NInt 0)) = true)
  ∧ (∀ props hprops v run detach,
       props !! "health" = Some (JObj hprops) →
       hprops !! "retries" = Some v →
       JS.truthy v = false →
       processCreateContainerOptions (JObj props) run detach
       = processCreateContainerOptions
           (JObj (<["health" := JObj (delete "retries" hprops)]> props)) run detach)
  ∧ (∀ b o run detach before iprops after k v,
       Spec.provided (JS.field o "image") = true →
       Spec.optional Spec.health (JS.field o "health") = true →
       earlier_lists b o = true →
       JS.field o (pair_list_field b) = JArr (before ++ JObj iprops :: after) →
       forallb (λ item, Spec.provided (JS.field item (pair_list_keys b).1)
                        && Spec.provided (JS.field item (pair_list_keys b).2)) before
       = true →
       k = (pair_list_keys b).1 ∨ k = (pair_list_keys b).2 →
       iprops !! k = Some v →
       JS.truthy v = false →
       processCreateContainerOptions o run detach
       = inl (Thrown ErrorClass (pair_list_message b))).
Proof.
  split; [done|]. split.
  - intros props hprops v run detach Hhealth Hretries Hfalsy.
    symmetry. by eapply builder_falsy_retries.
  - intros b o run detach before iprops after k v. apply entry_rejected.
Qed.

Lemma presence_is_truthiness_witness :
  processCreateContainerOptions zero_retries_config false true
  = inr [JStr "container"; JStr "create"; JStr "--health-cmd"; JStr "true"; JStr "wordpress"]
  ∧ processCreateContainerOptions zero_port_config false true
    = inl (Thrown ErrorClass Msg.ports_item).
Proof.
  destruct presence_is_truthiness as (_ & Hretries & Hentry). split.
  - etrans.
    + apply (Hretries
               (list_to_map
                  [("image", JStr "wordpress");
                   ("health", obj [("command", JStr "true"); ("retries", JNum (NInt 0))])])
               (list_to_map [("command", JStr "true"); ("retries", JNum (NInt 0))])
               (JNum (NInt 0)) false true); by vm_compute.
    + by vm_compute.
  - apply (Hentry ExposePorts zero_port_config false true
             [obj [("host", JNum (NInt 8000)); ("docker", JStr "80")]]
             (list_to_map [("host", JNum (NInt 0)); ("docker", JStr "80")]) []
             "host" (JNum (NInt 0))); by (vm_compute; auto).
Defined.

Lemma create_token_sequence_witness :
  ∃ args middle,
    processCreateContainerOptions sample_config false true = inr args
    ∧ args = [JStr "container"; JStr "create"] ++ middle
             ++ [JS.field sample_config "image"]
             ++ Spec.entries (JS.field sample_config "commands")
    ∧ (Spec.entries (JS.field sample_config "commands") = [] →
       last args = Some (JS.field sample_config "image"))
    ∧ (JStr "--detach" ∉ Spec.supplied_values sample_config → JStr "--detach" ∉ args).
Proof. apply (create_token_sequence sample_config true); by vm_compute. Defined.

Lemma create_with_commands_ends_with_command :
  processCreateContainerOptions create_with_commands_config false true
  = inr [JStr "container"; JStr "create"; JStr "wordpress"; JStr "ls"]
  ∧ last [JStr "container"; JStr "create"; JStr "wordpress"; JStr "ls"] = Some (JStr "ls")
  ∧ JStr "ls" ≠ JS.field create_with_commands_config "image".
Proof. by vm_compute. Qed.

(** * Further properties of the builders *)

(** X1.  The container builder returns normally exactly on the options with
    a provided image whose other fields are well shaped, and what it returns
    is then the specified sequence; on every other value it throws. *)
Theorem builder_accepts_exactly (o : jsval) (run detach : bool) (args : list jsval) :
  processCreateContainerOptions o run detach = inr args
  ↔ Spec.ContainerConfig o = true
    ∧ Spec.provided (JS.field o "image") = true
    ∧ args = Spec.tokens o run detach.
Proof.
  split.
  - intros H.
    destruct (proj1 (builder_returns_iff o run detach)) as [Hconfig Himage]; [eauto|].
    rewrite builder_returns_tokens in H by done.
    by simplify_eq.
  - intros (Hconfig & Himage & ->). by apply builder_returns_tokens.
Qed.

Lemma statements_without_image o run detach :
  JS.truthy (JS.field o "image") = false →
  statements_to_image o run detach (initial_args run)
  = (inl (Thrown ErrorClass Msg.image), Spec.base_tokens run detach).
Proof.
  intros Himage. unfold statements_to_image.
  run_step ltac:(apply base_tokens_built).
  destruct (JS.truthy o) eqn:Ho; simpl.
  - erewrite bind_returns.
    2: { erewrite bind_returns by (unfold lift; by rewrite (truthy_Get _ _ Ho)).
         by rewrite Himage. }
    by erewrite bind_throws.
  - erewrite bind_returns by reflexivity. by erewrite bind_throws.
Qed.

(** X2.  Without a provided image the container builder throws the image
    [Error], whatever else the options hold and also when the options are
    themselves [undefined] or [null]; only the base tokens have been placed
    in the argument array by then. *)
Theorem image_checked_first (o : jsval) (run detach : bool) :
  Spec.provided (JS.field o "image") = false →
  processCreateContainerOptions_trace o run detach
  = (inl (Thrown ErrorClass Msg.image), Spec.base_tokens run detach)
  ∧ processCreateContainerOptions o run detach = inl (Thrown ErrorClass Msg.image).
Proof.
  intros Himage.
  assert (processCreateContainerOptions_trace o run detach
          = (inl (Thrown ErrorClass Msg.image), Spec.base_tokens run detach)) as H.
  { unfold processCreateContainerOptions_trace, processCreateContainerOptions_body.
    erewrite bind_throws; [done|]. by apply statements_without_image. }
  split; [done|]. unfold processCreateContainerOptions. by rewrite H.
Qed.

Lemma image_checked_first_witness :
  processCreateContainerOptions_trace JUndefined true false
  = (inl (Thrown ErrorClass Msg.image), [JStr "container"; JStr "run"])
  ∧ processCreateContainerOptions JUndefined true false
    = inl (Thrown ErrorClass Msg.image).
Proof. apply (image_checked_first JUndefined true false). reflexivity. Defined.

(** ** The run and detach flags *)

Lemma state_blind_ret {S A} (a : A) : state_blind (ret (S := S) a).
Proof. by intros s s'. Qed.

Lemma state_blind_throw {S A} e : state_blind (throw (S := S) (A := A) e).
Proof. by intros s s'. Qed.

Lemma state_blind_lift {S A} (r : error + A) : state_blind (lift (S := S) r).
Proof. by intros s s'. Qed.

Lemma state_blind_push xs : state_blind (push xs).
Proof. by intros s s'. Qed.

Lemma state_blind_pop : state_blind pop.
Proof. by intros s s'. Qed.

Lemma bind_blind {S A B} (m m' : Eff S A) (f : A → Eff S B) s s' :
  (m s).1 = (m' s').1 →
  (∀ a, state_blind (f a)) →
  (bind m f s).1 = (bind m' f s').1.
Proof.
  intros Hm Hf. unfold bind.
  destruct (m s) as [[e|a] s1], (m' s') as [[e'|a'] s1']; simpl in *; simplify_eq;
    [done|]. apply Hf.
Qed.

Lemma state_blind_bind {S A B} (m : Eff S A) (f : A → Eff S B) :
  state_blind m → (∀ a, state_blind (f a)) → state_blind (bind m f).
Proof. intros Hm Hf s s'. by apply bind_blind. Qed.

Lemma state_blind_when {S} c (m : Eff S unit) : state_blind m → state_blind (when c m).
Proof. intros Hm. destruct c; [done|]. apply state_blind_ret. Qed.

Lemma state_blind_forEach items f :
  (∀ item, state_blind (f item)) → state_blind (forEach items f).
Proof.
  intros Hf. induction items as [|item items IH]; simpl.
  - apply state_blind_ret.
  - apply state_blind_bind; [apply Hf | by intros _].
Qed.

Ltac state_blind_step :=
  first
    [ apply state_blind_bind; [| intros ? ]
    | apply state_blind_ret
    | apply state_blind_throw
    | apply state_blind_lift
    | apply state_blind_push
    | apply state_blind_pop
    | apply state_blind_when
    | apply state_blind_forEach; intros ?
    | match goal with
      | |- state_blind (if ?c then _ else _) => destruct c
      | |- state_blind (match ?v with _ => _ end) => destruct v
      end ].

Lemma body_outcome_blind o run detach run' detach' :
  (processCreateContainerOptions_body o run detach (initial_args run)).1
  = (processCreateContainerOptions_body o run' detach' (initial_args run')).1.
Proof.
  unfold processCreateContainerOptions_body.
  apply bind_blind.
  - unfold statements_to_image. apply bind_blind.
    + by destruct (run && negb detach), (run' && negb detach').
    + intros _.
      unfold health_block, volumes_block, env_block, ports_block, list_block,
        pair_item, push_option.
      repeat state_blind_step.
  - intros _. unfold commands_block. repeat state_blind_step.
Qed.

(** X3.  Whether the container builder throws, and what it throws, does not
    depend on the run and detach flags. *)
Theorem builder_error_independent_of_flags (o : jsval) (run detach run' detach' : bool)
    (e : error) :
  processCreateContainerOptions o run detach = inl e →
  processCreateContainerOptions o run' detach' = inl e.
Proof.
  unfold processCreateContainerOptions, processCreateContainerOptions_trace.
  pose proof (body_outcome_blind o run detach run' detach') as H.
  destruct (processCreateContainerOptions_body o run detach _) as [[e1|[]] s1],
    (processCreateContainerOptions_body o run' detach' _) as [[e2|[]] s2];
    simpl in H; intros ?; by simplify_eq.
Qed.

Lemma builder_error_independent_of_flags_witness :
  processCreateContainerOptions no_image_config true false
  = inl (Thrown ErrorClass Msg.image).
Proof.
  apply (builder_error_independent_of_flags no_image_config false true true false).
  reflexivity.
Defined.

(** X4.  The run and detach flags choose the leading tokens and nothing
    else: what follows them in a returned sequence is the same for every
    choice, and ["--detach"] is placed only when both flags are set. *)
Theorem flags_choose_base_tokens (o : jsval) (run detach run' detach' : bool)
    (args : list jsval) :
  processCreateContainerOptions o run detach = inr args →
  args = Spec.base_tokens run detach ++ tokens_after_base o
  ∧ processCreateContainerOptions o run' detach'
    = inr (Spec.base_tokens run' detach' ++ tokens_after_base o)
  ∧ processCreateContainerOptions o false detach
    = processCreateContainerOptions o false detach'.
Proof.
  intros H.
  destruct (proj1 (builder_returns_iff o run detach)) as [Hconfig Himage]; [eauto|].
  assert (∀ r d, Spec.tokens o r d = Spec.base_tokens r d ++ tokens_after_base o) as Htokens.
  { intros r d. unfold Spec.tokens, Spec.tokens_to_image, tokens_after_base.
    by rewrite <- !app_assoc. }
  rewrite builder_returns_tokens in H by done. simplify_eq.
  rewrite !builder_returns_tokens by done. by rewrite !Htokens.
Qed.

Lemma flags_choose_base_tokens_witness :
  Spec.tokens sample_config true true
  = Spec.base_tokens true true ++ tokens_after_base sample_config
  ∧ processCreateContainerOptions sample_config false false
    = inr (Spec.base_tokens false false ++ tokens_after_base sample_config)
  ∧ processCreateContainerOptions sample_config false true
    = processCreateContainerOptions sample_config false false.
Proof.
  apply (flags_choose_base_tokens sample_config true true false false).
  by vm_compute.
Defined.

(** ** The order of the validations *)

Lemma statements_reach_health o run detach :
  JS.truthy (JS.field o "image") = true →
  ∃ args,
    statements_to_image o run detach (initial_args run)
    = (health_block o >>
       let! rm := lift (JS.Get o "rm") in
       when (JS.truthy rm) (push [JStr "--rm"]) >>
       volumes_block o >> env_block o >> ports_block o >>
       let! image := lift (JS.Get o "image") in push [image]) args.
Proof.
  intros Himage.
  assert (JS.truthy o = true) as Ho by (by destruct o).
  eexists. unfold statements_to_image.
  run_step ltac:(apply base_tokens_built).
  rewrite Ho. simpl.
  run_step ltac:(erewrite bind_returns;
                 [| unfold lift; by rewrite (truthy_Get _ _ Ho)]; by rewrite Himage).
  simpl. run_step ltac:(reflexivity).
  run_step ltac:(unfold lift; by rewrite (truthy_Get _ _ Ho)).
  run_step ltac:(apply push_option_tokens).
  run_step ltac:(unfold lift; by rewrite (truthy_Get _ _ Ho)).
  run_step ltac:(apply push_option_tokens).
  reflexivity.
Qed.

Lemma builder_fails_at_health o run detach e :
  JS.truthy (JS.field o "image") = true →
  (∀ args, ∃ args', health_block o args = (inl e, args')) →
  processCreateContainerOptions o run detach = inl e.
Proof.
  intros Himage Hblock.
  destruct (statements_reach_health o run detach Himage) as [args Hreach].
  destruct (Hblock args) as [args' Hthrows].
  eapply builder_throws_in_statements. rewrite Hreach.
  by erewrite bind_throws.
Qed.

Lemma health_block_without_command o args :
  JS.truthy (JS.field o "image") = true →
  JS.truthy (JS.field o "health") = true →
  JS.truthy (JS.field (JS.field o "health") "command") = false →
  health_block o args = (inl (Thrown TypeErrorClass Msg.health_command), args).
Proof.
  intros Himage Hhealth Hcommand. unfold health_block.
  run_step ltac:(unfold lift; by rewrite (field_provided_Get _ _ _ Himage)).
  rewrite Hhealth. simpl.
  run_step ltac:(unfold lift; by rewrite (truthy_Get _ _ Hhealth)).
  rewrite Hcommand. simpl. by erewrite bind_throws.
Qed.

Lemma health_block_bad_retries o args :
  JS.truthy (JS.field o "image") = true →
  JS.truthy (JS.field (JS.field o "health") "command") = true →
  JS.truthy (JS.field (JS.field o "health") "retries") = true →
  JS.isInteger (JS.field (JS.field o "health") "retries") = false →
  ∃ args', health_block o args = (inl (Thrown TypeErrorClass Msg.health_retries), args').
Proof.
  intros Himage Hcommand Hretries Hinteger.
  assert (JS.truthy (JS.field o "health") = true) as Hhealth.
  { by destruct (JS.field o "health"). }
  eexists. unfold health_block.
  run_step ltac:(unfold lift; by rewrite (field_provided_Get _ _ _ Himage)).
  rewrite Hhealth. simpl.
  run_step ltac:(unfold lift; by rewrite (truthy_Get _ _ Hhealth)).
  rewrite Hcommand. simpl.
  run_step ltac:(reflexivity). run_step ltac:(reflexivity).
  run_step ltac:(unfold lift; by rewrite (truthy_Get _ _ Hhealth)).
  run_step ltac:(apply push_option_tokens).
  run_step ltac:(unfold lift; by rewrite (truthy_Get _ _ Hhealth)).
  rewrite Hretries, Hinteger. simpl.
  erewrite bind_throws; [done|]. by erewrite bind_throws.
Qed.

(** X5.  With an image provided, a health block that is provided without a
    provided command makes the container builder throw the health-command
    [TypeError], whatever the later fields hold; this includes a health value
    that is not an object. *)
Theorem health_requires_command (o : jsval) (run detach : bool) :
  Spec.provided (JS.field o "image") = true →
  Spec.provided (JS.field o "health") = true →
  Spec.provided (JS.field (JS.field o "health") "command") = false →
  processCreateContainerOptions o run detach
  = inl (Thrown TypeErrorClass Msg.health_command).
Proof.
  intros Himage Hhealth Hcommand. apply builder_fails_at_health; [done|].
  intros args. exists args. by apply health_block_without_command.
Qed.

Lemma health_requires_command_witness :
  processCreateContainerOptions bad_health_config false true
  = inl (Thrown TypeErrorClass Msg.health_command).
Proof. apply (health_requires_command bad_health_config false true); reflexivity. Defined.

(** X6.  With an image and a health command provided, a [health.retries]
    that is provided and is not an integer number (a fraction, a string, a
    boolean) makes the container builder throw the retries [TypeError],
    whatever the later fields hold. *)
Theorem retries_must_be_integer (o : jsval) (run detach : bool) :
  Spec.provided (JS.field o "image") = true →
  Spec.provided (JS.field (JS.field o "health") "command") = true →
  Spec.provided (JS.field (JS.field o "health") "retries") = true →
  JS.isInteger (JS.field (JS.field o "health") "retries") = false →
  processCreateContainerOptions o run detach
  = inl (Thrown TypeErrorClass Msg.health_retries).
Proof.
  intros Himage Hcommand Hretries Hinteger. apply builder_fails_at_health; [done|].
  intros args. by apply health_block_bad_retries.
Qed.

Lemma retries_must_be_integer_witness :
  processCreateContainerOptions bad_retries_config true true
  = inl (Thrown TypeErrorClass Msg.health_retries).
Proof. apply (retries_must_be_integer bad_retries_config true true); reflexivity. Defined.

Lemma builder_fails_at_list b o run detach e :
  JS.truthy (JS.field o "image") = true →
  Spec.optional Spec.health (JS.field o "health") = true →
  earlier_lists b o = true →
  (∀ args, ∃ args', pair_list_block b o args = (inl e, args')) →
  processCreateContainerOptions o run detach = inl e.
Proof.
  intros Himage Hhealth Hearlier Hblock.
  assert (JS.truthy o = true) as Ho by (by destruct o).
  assert (∃ args, statements_to_image o run detach (initial_args run) = (inl e, args))
    as [args Hstatements]; [|by eapply builder_throws_in_statements].
  rewrite statements_reach_lists by done.
  destruct b; simpl in *.
  - destruct (Hblock (tokens_to_rm o run detach)) as [args' Hthrows].
    exists args'. by erewrite bind_throws.
  - run_step ltac:(unfold volumes_block;
                   erewrite bind_returns;
                   [| unfold lift; by rewrite (truthy_Get _ _ Ho)];
                   apply list_block_tokens; by right).
    match goal with |- ∃ _, bind _ _ ?s = _ => destruct (Hblock s) as [args' Hthrows] end.
    exists args'. by erewrite bind_throws.
  - apply andb_prop in Hearlier as [Hvolumes Henv].
    run_step ltac:(unfold volumes_block;
                   erewrite bind_returns;
                   [| unfold lift; by rewrite (truthy_Get _ _ Ho)];
                   apply list_block_tokens; by right).
    run_step ltac:(unfold env_block;
                   erewrite bind_returns;
                   [| unfold lift; by rewrite (truthy_Get _ _ Ho)];
                   apply list_block_tokens; by left).
    match goal with |- ∃ _, bind _ _ ?s = _ => destruct (Hblock s) as [args' Hthrows] end.
    exists args'. by erewrite bind_throws.
Qed.

Lemma pair_list_block_unfold b o args :
  JS.truthy o = true →
  pair_list_block b o args
  = match b with
    | Volumes =>
        list_block (JS.field o "volumes") Msg.volumes_array
          (pair_item "-v" "docker" "host" "host" ":" "docker" Msg.volumes_item) args
    | EnvironmentVariables =>
        list_block (JS.field o "environmentVariables") Msg.env_array
          (pair_item "-e" "name" "value" "name" "=" "value" Msg.env_item) args
    | ExposePorts =>
        list_block (JS.field o "exposePorts") Msg.ports_array
          (pair_item "-p" "host" "docker" "host" ":" "docker" Msg.ports_item) args
    end.
Proof.
  intros Ho. destruct b; simpl;
    unfold volumes_block, env_block, ports_block;
    by run_step ltac:(unfold lift; by rewrite (truthy_Get _ _ Ho)).
Qed.

Lemma list_block_not_array v not_array item args :
  JS.truthy v = true → JS.isArray v = false →
  list_block v not_array item args = (inl (Thrown ErrorClass not_array), args).
Proof. intros Hv Harray. unfold list_block. rewrite Hv. by destruct v. Qed.

(** X7.  A [volumes], [environmentVariables] or [exposePorts] that is
    provided and is not a list makes the container builder throw the
    must-be-an-array [Error] of that option, once the image, the health block
    and the lists before it are in order. *)
Theorem list_option_must_be_array (b : pair_list) (o : jsval) (run detach : bool) :
  Spec.provided (JS.field o "image") = true →
  Spec.optional Spec.health (JS.field o "health") = true →
  earlier_lists b o = true →
  Spec.provided (JS.field o (pair_list_field b)) = true →
  JS.isArray (JS.field o (pair_list_field b)) = false →
  processCreateContainerOptions o run detach
  = inl (Thrown ErrorClass (pair_list_not_array b)).
Proof.
  intros Himage Hhealth Hearlier Hprovided Harray.
  assert (JS.truthy o = true) as Ho by (by destruct o).
  apply (builder_fails_at_list b); try done.
  intros args. exists args. rewrite pair_list_block_unfold by done.
  destruct b; by apply list_block_not_array.
Qed.

Lemma list_option_must_be_array_witness :
  processCreateContainerOptions volumes_string_config false true
  = inl (Thrown ErrorClass Msg.volumes_array).
Proof.
  apply (list_option_must_be_array Volumes volumes_string_config false true);
    reflexivity.
Defined.

Lemma forEach_nullish_entry flag first second left sep right message before item after :
  forallb (λ item, JS.truthy (JS.field item first) && JS.truthy (JS.field item second))
          before = true →
  is_nullish item = true →
  ∀ args, ∃ args',
    forEach (before ++ item :: after)
            (pair_item flag first second left sep right message) args
    = (inl (EngineTypeError first item), args').
Proof.
  intros Hbefore Hitem. induction before as [|x before IH]; intros args; simpl.
  - eexists. erewrite bind_throws; [done|].
    unfold pair_item. erewrite bind_throws; [done|]. by destruct item.
  - simpl in Hbefore. apply andb_prop in Hbefore as [Hok Hbefore].
    apply andb_prop in Hok as [H1 H2].
    erewrite bind_returns by (by apply pair_item_tokens).
    by apply IH.
Qed.

(** X8.  A list entry that is [undefined] or [null] is not reported with the
    builder's own missing-field [Error]: the read of the entry's first
    property fails with the engine's [TypeError] ([docker] for a volume,
    [name] for an environment variable, [host] for a port). *)
Theorem nullish_entry_engine_error (b : pair_list) (o : jsval) (run detach : bool)
    (before after : list jsval) (item : jsval) :
  Spec.provided (JS.field o "image") = true →
  Spec.optional Spec.health (JS.field o "health") = true →
  earlier_lists b o = true →
  JS.field o (pair_list_field b) = JArr (before ++ item :: after) →
  forallb (λ item, Spec.provided (JS.field item (pair_list_keys b).1)
                   && Spec.provided (JS.field item (pair_list_keys b).2)) before
  = true →
  is_nullish item = true →
  processCreateContainerOptions o run detach
  = inl (EngineTypeError (pair_list_first_read b) item).
Proof.
  intros Himage Hhealth Hearlier Hlist Hbefore Hitem.
  assert (JS.truthy o = true) as Ho by (by destruct o).
  apply (builder_fails_at_list b); try done.
  intros args. rewrite pair_list_block_unfold by done.
  destruct b; simpl in *; rewrite Hlist; simpl.
  - rewrite forallb_swap in Hbefore. by apply forEach_nullish_entry.
  - by apply forEach_nullish_entry.
  - by apply forEach_nullish_entry.
Qed.

Lemma nullish_entry_engine_error_witness :
  processCreateContainerOptions null_entry_config false true
  = inl (EngineTypeError "name" JNull).
Proof.
  apply (nullish_entry_engine_error EnvironmentVariables null_entry_config false true
           [obj [("name", JStr "A"); ("value", JStr "1")]] [] JNull); reflexivity.
Defined.

(** ** Where the engine's TypeError can come from *)

Lemma throws_only_Get_truthy {S} P v k :
  JS.truthy v = true → throws_only P (lift (S := S) (JS.Get v k)).
Proof. intros Hv s e s' H. unfold lift in H. destruct v; by simplify_eq. Qed.

Lemma pair_item_throws_entry flag first second left sep right message item :
  first ∈ ["docker"; "name"; "host"] →
  throws_only entry_read_error
    (pair_item flag first second left sep right message item).
Proof.
  intros Hfirst s e s' H. unfold pair_item in H.
  destruct (is_nullish item) eqn:Hitem.
  - erewrite bind_throws in H by (by destruct item). by simplify_eq.
  - assert (∀ k, JS.Get item k = inr (JS.field item k)) as HGet.
    { intros k. by destruct item. }
    rewrite !HGet in H. unfold bind, lift, ret, throw, push in H.
    repeat case_match; by simplify_eq.
Qed.

Ltac entry_step :=
  first
    [ apply throws_only_bind; [| intros ? ]
    | apply throws_only_ret
    | apply throws_only_push
    | apply throws_only_pop
    | apply throws_only_throw; exact I
    | apply throws_only_Get_truthy; assumption
    | apply throws_only_forEach; intros ?; apply pair_item_throws_entry;
      rewrite !elem_of_cons; auto
    | match goal with
      | |- throws_only _ (if ?c then _ else _) => destruct c eqn:?
      | |- throws_only _ (match ?v with _ => _ end) => destruct v
      end ].

Lemma body_throws_entry o run detach :
  JS.truthy o = true →
  throws_only entry_read_error (processCreateContainerOptions_body o run detach).
Proof.
  intros Ho.
  unfold processCreateContainerOptions_body, statements_to_image, health_block,
    volumes_block, env_block, ports_block, commands_block, list_block, push_option,
    when.
  repeat entry_step.
Qed.

(** X9.  The container builder guards every property read on the options
    and on the health block: the engine's [TypeError] can only come from a
    list entry that is [undefined] or [null], for the property of the entry
    that is read first. *)
Theorem engine_error_only_from_entries (o : jsval) (run detach : bool)
    (k : string) (v : jsval) :
  processCreateContainerOptions o run detach = inl (EngineTypeError k v) →
  is_nullish v = true ∧ k ∈ ["docker"; "name"; "host"].
Proof.
  intros H. destruct (JS.truthy (JS.field o "image")) eqn:Himage.
  - assert (JS.truthy o = true) as Ho by (by destruct o).
    unfold processCreateContainerOptions, processCreateContainerOptions_trace in H.
    destruct (processCreateContainerOptions_body _ _ _ _) as [[e'|[]] args] eqn:Hbody;
      simplify_eq.
    by apply (body_throws_entry o run detach Ho) in Hbody.
  - unfold processCreateContainerOptions, processCreateContainerOptions_trace,
      processCreateContainerOptions_body in H.
    erewrite bind_throws in H by (by apply statements_without_image).
    discriminate.
Qed.

Lemma engine_error_only_from_entries_witness :
  is_nullish JNull = true ∧ "name" ∈ ["docker"; "name"; "host"].
Proof.
  apply (engine_error_only_from_entries null_entry_config false true "name" JNull).
  reflexivity.
Defined.

(** * Further properties of the [Docker] methods *)

(** X10.  On options with [commands] and [rm] provided that the builder
    accepts, [RunInContainer] spawns [docker] once with the sequence for
    [run = true] and [detach = false], so without ["--detach"], and resolves
    with the stdout and stderr of the process as they came; it writes nothing
    into the options. *)
Theorem RunInContainer_returns_output (options : operand) (stdout stderr : string)
    (w : world) :
  Spec.ContainerConfig (read w options) = true →
  Spec.provided (JS.field (read w options) "image") = true →
  Spec.provided (JS.field (read w options) "commands") = true →
  Spec.provided (JS.field (read w options) "rm") = true →
  Docker.RunInContainer options (Exited 0 stdout stderr) w
  = (inr (Resolved {| output_stdout := stdout; output_stderr := stderr |}),
     World (store w)
       (spawned w ++ [("docker", Spec.tokens (read w options) true false)])).
Proof.
  intros Hconfig Himage Hcommands Hrm. unfold Docker.RunInContainer, Spec.provided in *.
  run_step ltac:(reflexivity).
  run_step ltac:(unfold lift; by rewrite (field_provided_Get _ _ _ Himage)).
  rewrite Hcommands. simpl. run_step ltac:(reflexivity).
  run_step ltac:(unfold lift; by rewrite (field_provided_Get _ _ _ Himage)).
  rewrite Hrm. simpl. run_step ltac:(reflexivity).
  rewrite builder_returns_tokens by done.
  run_step ltac:(reflexivity). by run_step ltac:(reflexivity).
Qed.

Lemma RunInContainer_returns_output_witness :
  Docker.RunInContainer (Local run_config) (Exited 0 ("ok" +:+ nl) "warn") empty_world
  = (inr (Resolved {| output_stdout := "ok" +:+ nl; output_stderr := "warn" |}),
     World ∅ [("docker", [JStr "container"; JStr "run"; JStr "--rm"; JStr "wordpress";
                          JStr "wp"; JStr "--info"])]).
Proof.
  apply (RunInContainer_returns_output (Local run_config) ("ok" +:+ nl) "warn" empty_world);
    reflexivity.
Defined.

Lemma ReturnPromise_spawned {A} p (callback : string → string → Callback A) w :
  (∀ stdout stderr w0, spawned (callback stdout stderr w0).2 = spawned w0) →
  ∃ st, (ReturnPromise p callback w).1 = inr st
        ∧ spawned (ReturnPromise p callback w).2 = spawned w.
Proof.
  intros Hcallback. unfold ReturnPromise.
  destruct p as [code stdout stderr|detail]; [|by eexists].
  destruct code as [|code|code]; [|destruct stderr; by eexists..].
  specialize (Hcallback stdout stderr w).
  destruct (callback stdout stderr w) as [a w']. by eexists.
Qed.

Lemma assign_spawned o k x w : spawned (assign o k x w).2 = spawned w.
Proof. by destruct o. Qed.

Lemma CreateContainer_callback_spawned o run stdout w :
  spawned (Docker.CreateContainer_callback o run stdout w).2 = spawned w.
Proof.
  unfold Docker.CreateContainer_callback.
  pose proof (assign_spawned o "id" (JStr (JS.replace stdout nl "")) w) as H1.
  destruct (assign o "id" _ w) as [o1 w1].
  pose proof (assign_spawned o1 "status" (JStr (if run then "started" else "created")) w1)
    as H2.
  destruct (assign o1 "status" _ w1) as [o2 w2].
  destruct (JS.truthy (JS.field (read w2 o2) "rm")).
  - pose proof (assign_spawned o2 "status" (JStr "removed") w2) as H3.
    destruct (assign o2 "status" _ w2) as [o3 w3]. simpl in *. congruence.
  - simpl in *. congruence.
Qed.

Lemma spawn_then_promise {A} command args p (callback : string → string → Callback A) w :
  (∀ stdout stderr w0, spawned (callback stdout stderr w0).2 = spawned w0) →
  ∃ st, ((spawn command args >> ReturnPromise p callback) w).1 = inr st
        ∧ spawned ((spawn command args >> ReturnPromise p callback) w).2
          = spawned w ++ [(command, args)].
Proof.
  intros Hcallback. erewrite bind_returns by reflexivity.
  destruct (ReturnPromise_spawned p callback
              (World (store w) (spawned w ++ [(command, args)])) Hcallback)
    as (st & Hst & Hspawned).
  eauto.
Qed.

(** X11.  Every method of [Docker] either throws before anything is spawned
    and leaves the world as it was, or spawns exactly one [docker] process,
    however that process ends; [CreateVolume] validates nothing and always
    spawns. *)
Theorem one_process_per_call (options : operand) (name : jsval)
    (run detach : option bool) (p : outcome) (w : world) :
  throws_or_spawns_once w (Docker.CreateContainer options run detach p w)
  ∧ throws_or_spawns_once w (Docker.RunInContainer options p w)
  ∧ throws_or_spawns_once w (Docker.CreateNetwork options p w)
  ∧ (∃ st, (Docker.CreateVolume name p w).1 = inr st
           ∧ spawned (Docker.CreateVolume name p w).2
             = spawned w ++ [("docker", [JStr "volume"; JStr "create"; name])]).
Proof.
  split; [|split; [|split]].
  - unfold Docker.CreateContainer.
    erewrite bind_returns by reflexivity.
    destruct (processCreateContainerOptions _ _ _) as [e|args] eqn:Hargs.
    + left. exists e. by erewrite bind_throws.
    + right. erewrite bind_returns by reflexivity.
      edestruct (spawn_then_promise (A := Container)) as (st & Hst & Hspawned);
        [|by eauto].
      intros. apply CreateContainer_callback_spawned.
  - unfold Docker.RunInContainer.
    erewrite bind_returns by reflexivity.
    destruct (JS.Get (read w options) "commands") as [e|commands] eqn:Hcommands.
    { left. exists e. by erewrite bind_throws. }
    erewrite bind_returns by reflexivity.
    destruct (JS.truthy commands); simpl.
    2: { left. eexists. by erewrite bind_throws. }
    erewrite bind_returns by reflexivity.
    destruct (JS.Get (read w options) "rm") as [e|rm] eqn:Hrm.
    { left. exists e. by erewrite bind_throws. }
    erewrite bind_returns by reflexivity.
    destruct (JS.truthy rm); simpl.
    2: { left. eexists. by erewrite bind_throws. }
    erewrite bind_returns by reflexivity.
    destruct (processCreateContainerOptions _ _ _) as [e|args] eqn:Hargs.
    + left. exists e. by erewrite bind_throws.
    + right. erewrite bind_returns by reflexivity.
      edestruct (spawn_then_promise (A := RunInContainerOutput))
        as (st & Hst & Hspawned); [|by eauto].
      done.
  - unfold Docker.CreateNetwork.
    erewrite bind_returns by reflexivity. erewrite bind_returns by reflexivity.
    destruct (ProcessCreateNetworkOption _) as [e|args] eqn:Hargs.
    + left. exists e. by erewrite bind_throws.
    + right. erewrite bind_returns by reflexivity.
      edestruct (spawn_then_promise (A := Network)) as (st & Hst & Hspawned);
        [|by eauto].
      intros stdout stderr w0. simpl.
      pose proof (assign_spawned (Docker.normalize w options) "id"
                    (JStr (JS.replace stdout nl "")) w0) as H1.
      destruct (assign _ "id" _ w0) as [o1 w1].
      pose proof (assign_spawned o1 "status" (JStr "alive") w1) as H2.
      destruct (assign o1 "status" _ w1) as [o2 w2]. simpl in *. congruence.
  - unfold Docker.CreateVolume. apply spawn_then_promise. done.
Qed.

(** X12.  [CreateNetwork] throws the name [Error] and spawns nothing when,
    after a string argument has been turned into an object, no name is
    provided: on the empty string, on [undefined] and [null], on a number and
    on an object without a name. *)
Theorem CreateNetwork_requires_name (options : operand) (p : outcome) (w : world) :
  Spec.provided (JS.field (read w (Docker.normalize w options)) "name") = false →
  Docker.CreateNetwork options p w = (inl (Thrown ErrorClass Msg.network_name), w).
Proof.
  intros Hname. unfold Docker.CreateNetwork, Spec.provided in *.
  erewrite bind_returns by reflexivity. erewrite bind_returns by reflexivity.
  rewrite ProcessCreateNetworkOption_result, Hname. by erewrite bind_throws.
Qed.

Lemma CreateNetwork_requires_name_witness :
  Docker.CreateNetwork (Local (JStr "")) (Exited 0 "abc123" "") empty_world
  = (inl (Thrown ErrorClass Msg.network_name), empty_world).
Proof.
  apply (CreateNetwork_requires_name (Local (JStr "")) (Exited 0 "abc123" "") empty_world).
  reflexivity.
Defined.

Lemma substring_all s : substring 0 (String.length s) s = s.
Proof. induction s as [|c s IH]; simpl; [done|]. by rewrite IH. Qed.

Lemma replace_first_line_feed a b :
  occurs "010" a = false → JS.replace (a +:+ nl +:+ b) nl "" = a +:+ b.
Proof.
  induction a as [|c a IH]; intros Ha.
  - change (EmptyString +:+ nl +:+ b) with (String "010" b).
    rewrite replace_cons.
    assert (String.prefix nl (String "010" b) = true) as ->.
    { change (String.prefix nl (String "010" b))
        with (if ascii_dec "010" "010" then String.prefix EmptyString b else false).
      destruct (ascii_dec "010" "010"); [|done]. by destruct b. }
    simpl. by rewrite Nat.sub_0_r, substring_all.
  - simpl in Ha. apply orb_false_elim in Ha as [Hc Ha].
    apply bool_decide_eq_false in Hc.
    change (String c a +:+ nl +:+ b) with (String c (a +:+ nl +:+ b)).
    rewrite replace_cons, prefix_nl_other by done.
    by rewrite (IH Ha).
Qed.

(** X13.  Only the first line feed of stdout is removed: when the process
    prints more than one line, the identifier is the first two lines run
    together, and line feeds after the first stay in it. *)
Theorem only_first_line_feed_removed (first rest : string) (name : jsval)
    (stderr : string) (w : world) :
  occurs "010" first = false →
  JS.replace (first +:+ nl +:+ rest) nl "" = first +:+ rest
  ∧ volume_name <$> resolved (Docker.CreateVolume name
                                (Exited 0 (first +:+ nl +:+ rest) stderr) w)
    = Some (JStr (first +:+ rest)).
Proof.
  intros Hfirst. split; [by apply replace_first_line_feed|].
  rewrite CreateVolume_resolves. unfold resolved. simpl.
  by rewrite replace_first_line_feed.
Qed.

Lemma only_first_line_feed_removed_witness :
  JS.replace ("my-vol" +:+ nl +:+ "warning" +:+ nl) nl "" = "my-volwarning" +:+ nl
  ∧ volume_name <$> resolved (Docker.CreateVolume (JStr "my-vol")
                                (Exited 0 ("my-vol" +:+ nl +:+ "warning" +:+ nl) "")
                                empty_world)
    = Some (JStr ("my-volwarning" +:+ nl)).
Proof.
  apply (only_first_line_feed_removed "my-vol" ("warning" +:+ nl) (JStr "my-vol") ""
           empty_world).
  reflexivity.
Defined.

(** X14.  Options that are [undefined] or [null] are met differently by the
    methods: [CreateContainer] and [CreateNetwork] test the options first and
    throw their own [Error] with its usage example, while [RunInContainer]
    reads [options.commands] unguarded and fails with the engine's
    [TypeError]; none of them spawns a process. *)
Theorem nullish_options (options : operand) (run detach : option bool)
    (p : outcome) (w : world) :
  is_nullish (read w options) = true →
  Docker.CreateContainer options run detach p w
  = (inl (Thrown ErrorClass Msg.image), w)
  ∧ Docker.CreateNetwork options p w = (inl (Thrown ErrorClass Msg.network_name), w)
  ∧ Docker.RunInContainer options p w
    = (inl (EngineTypeError "commands" (read w options)), w).
Proof.
  intros Hnullish.
  assert (∀ k, JS.truthy (JS.field (read w options) k) = false) as Hfield.
  { intros k. revert Hnullish. by destruct (read w options). }
  split; [|split].
  - unfold Docker.CreateContainer.
    erewrite bind_returns by reflexivity.
    erewrite bind_throws; [done|]. unfold lift. f_equal.
    eapply builder_throws_in_statements. by apply statements_without_image.
  - assert (Docker.normalize w options = options) as Hnormal.
    { unfold Docker.normalize. revert Hnullish. by destruct (read w options). }
    unfold Docker.CreateNetwork.
    erewrite bind_returns by reflexivity. erewrite bind_returns by reflexivity.
    rewrite Hnormal, ProcessCreateNetworkOption_result, Hfield.
    by erewrite bind_throws.
  - unfold Docker.RunInContainer.
    erewrite bind_returns by reflexivity.
    erewrite bind_throws; [done|]. unfold lift.
    revert Hnullish. by destruct (read w options).
Qed.

Lemma nullish_options_witness :
  Docker.CreateContainer (Local JUndefined) None None (Exited 0 "" "") empty_world
  = (inl (Thrown ErrorClass Msg.image), empty_world)
  ∧ Docker.CreateNetwork (Local JUndefined) (Exited 0 "" "") empty_world
    = (inl (Thrown ErrorClass Msg.network_name), empty_world)
  ∧ Docker.RunInContainer (Local JUndefined) (Exited 0 "" "") empty_world
    = (inl (EngineTypeError "commands" JUndefined), empty_world).
Proof.
  apply (nullish_options (Local JUndefined) None None (Exited 0 "" "") empty_world).
  reflexivity.
Defined.

(** X15.  A provided [health.retries] reaches the returned sequence as the
    number it is, right after ["--health-retries"], and not as text: the
    sequence then holds a token that is not a string. *)
Theorem retries_token_is_a_number (o : jsval) (run detach : bool) (args : list jsval) :
  processCreateContainerOptions o run detach = inr args →
  Spec.provided (JS.field o "health") = true →
  Spec.provided (JS.field (JS.field o "health") "retries") = true →
  ∃ before after,
    args = before
           ++ [JStr "--health-retries"; JS.field (JS.field o "health") "retries"]
           ++ after
    ∧ JS.isInteger (JS.field (JS.field o "health") "retries") = true
    ∧ JS.isString (JS.field (JS.field o "health") "retries") = false.
Proof.
  intros H Hhealth Hretries.
  destruct (proj1 (builder_returns_iff o run detach)) as [Hconfig Himage]; [eauto|].
  rewrite builder_returns_tokens in H by done. simplify_eq.
  assert (JS.isInteger (JS.field (JS.field o "health") "retries") = true) as Hinteger.
  { unfold Spec.ContainerConfig, Spec.fields in Hconfig.
    repeat (apply andb_prop in Hconfig as [Hconfig _]).
    unfold Spec.optional in Hconfig. rewrite Hhealth in Hconfig. simpl in Hconfig.
    apply andb_prop in Hconfig as [_ Hoptional].
    unfold Spec.optional in Hoptional. by rewrite Hretries in Hoptional. }
  eexists (Spec.base_tokens run detach
           ++ Spec.flag_pair "--name" (JS.field o "name")
           ++ Spec.flag_pair "--net" (JS.field o "network")
           ++ [JStr "--health-cmd"; JS.field (JS.field o "health") "command"]
           ++ Spec.flag_pair "--health-interval" (JS.field (JS.field o "health") "interval")),
    _.
  split; [|split; [done|]].
  - unfold Spec.tokens, Spec.tokens_to_image, Spec.health_tokens.
    rewrite Hhealth. unfold Spec.flag_pair at 4. rewrite Hretries.
    rewrite <- !app_assoc. reflexivity.
  - by destruct (JS.field (JS.field o "health") "retries") as [| | |[]| | |].
Qed.

Lemma retries_token_is_a_number_witness :
  ∃ before after,
    Spec.tokens sample_config false true
    = before
      ++ [JStr "--health-retries"; JS.field (JS.field sample_config "health") "retries"]
      ++ after
    ∧ JS.isInteger (JS.field (JS.field sample_config "health") "retries") = true
    ∧ JS.isString (JS.field (JS.field sample_config "health") "retries") = false.
Proof.
  apply (retries_token_is_a_number sample_config false true); by vm_compute.
Defined.

Lemma builder_ignores_id_and_status props id status run detach :
  processCreateContainerOptions
    (JObj (<["status" := status]> (<["id" := id]> props))) run detach
  = processCreateContainerOptions (JObj props) run detach.
Proof.
  unfold processCreateContainerOptions, processCreateContainerOptions_trace,
    processCreateContainerOptions_body, statements_to_image, health_block,
    volumes_block, env_block, ports_block, commands_block.
  by rewrite !Get_other_property.
Qed.

(** X16.  The builder does not read the [id] and [status] that a creation
    writes back, so an options object can be used again: a second successful
    [CreateContainer] on the same object spawns [docker] with the same
    arguments as the first, and the object then carries the id of the second
    process and the status derived as before. *)
Theorem CreateContainer_twice (l : loc) (props : gmap string jsval)
    (run detach : option bool) (stdout1 stderr1 stdout2 stderr2 : string)
    (w : world) (args : list jsval) :
  store w !! l = Some props →
  processCreateContainerOptions (JObj props) (default false run) (default true detach)
  = inr args →
  ∃ c1 w1 c2 w2,
    Docker.CreateContainer (Shared l) run detach (Exited 0 stdout1 stderr1) w
    = (inr (Resolved c1), w1)
    ∧ Docker.CreateContainer (Shared l) run detach (Exited 0 stdout2 stderr2) w1
      = (inr (Resolved c2), w2)
    ∧ spawned w2 = spawned w ++ [("docker", args); ("docker", args)]
    ∧ store w2 !! l
      = Some (<["status" := JStr (derived_status (JObj props) (default false run))]>
                (<["id" := JStr (JS.replace stdout2 nl "")]> props)).
Proof.
  intros Hl Hargs.
  assert (read w (Shared l) = JObj props) as Hread by (simpl; by rewrite Hl).
  eexists _, _, _, _. split; [by apply CreateContainer_resolves|].
  split; [|split].
  - eapply CreateContainer_resolves.
    + simpl. by rewrite lookup_insert_eq.
    + by rewrite builder_ignores_id_and_status.
  - simpl. by rewrite <- app_assoc.
  - simpl. rewrite lookup_insert_eq. f_equal.
    assert (derived_status
              (JObj (<["status" := JStr (derived_status (JObj props) (default false run))]>
                       (<["id" := JStr (JS.replace stdout1 nl "")]> props)))
              (default false run)
            = derived_status (JObj props) (default false run)) as ->.
    { unfold derived_status. simpl. by rewrite !lookup_insert_ne. }
    apply map_eq. intros k.
    destruct (decide (k = "status")) as [->|Hstatus]; [by rewrite !lookup_insert_eq|].
    rewrite !(lookup_insert_ne _ "status") by done.
    destruct (decide (k = "id")) as [->|Hid]; [by rewrite !lookup_insert_eq|].
    by rewrite !lookup_insert_ne by done.
Qed.

Lemma CreateContainer_twice_witness :
  ∃ c1 w1 c2 w2,
    Docker.CreateContainer (Shared 1%positive) None None (Exited 0 ("abc" +:+ nl) "")
      caller_world
    = (inr (Resolved c1), w1)
    ∧ Docker.CreateContainer (Shared 1%positive) None None (Exited 0 ("def" +:+ nl) "") w1
      = (inr (Resolved c2), w2)
    ∧ spawned w2
      = spawned caller_world
        ++ [("docker", [JStr "container"; JStr "create"; JStr "wordpress"]);
            ("docker", [JStr "container"; JStr "create"; JStr "wordpress"])]
    ∧ store w2 !! 1%positive
      = Some (<["status" := JStr (derived_status (JObj {[ "image" := JStr "wordpress" ]})
                                    (default false None))]>
                (<["id" := JStr (JS.replace ("def" +:+ nl) nl "")]>
                   {[ "image" := JStr "wordpress" ]})).
Proof.
  apply (CreateContainer_twice 1%positive {[ "image" := JStr "wordpress" ]} None None
           ("abc" +:+ nl) "" ("def" +:+ nl) "" caller_world
           [JStr "container"; JStr "create"; JStr "wordpress"]); reflexivity.
Defined.
